(** * gouache: cache decorators, a shallow embedding

    The development follows the three decorators of the repository:
    - [ddd]     (ddd/cache.go): read-through cache with delayed double delete;
    - [sharded] (sharded/cache.go): hash-based routing over a list of buckets;
    - [sample]  (sample/cache.go): the in-memory cache, used as a collaborator.

    Go values are modelled as follows.  An [error] is a chain as [errors.Is]
    sees it, a Go [error] interface value is [option error] ([None] is nil),
    an [any] payload is a small tagged union.  A collaborator behind an
    interface is a record of state transformers over its own state type.
    Every call that crosses an interface is recorded in a trace, so that the
    order of effects can be stated.  Sleeping and timeouts are not modelled. *)

From Stdlib Require Import ZArith Lia.
From stdpp Require Import gmap strings list.

Local Open Scope Z_scope.

(** ** Go values *)

Module Go.

(** Error values.  [ErrCacheMiss] is the package variable
    [var ErrCacheMiss = errors.New("gouache: key not found")].  [ErrNew msg]
    is a value a call of [errors.New] makes where it is used: a pointer of
    its own, identical to no other error.  [ErrText text] is a value of a
    string error type (such as the client's [redis.Nil]), which Go compares
    by its text.  [ErrWrap] is a wrapped error ([fmt.Errorf] with [%w]). *)
Inductive error : Type :=
  | ErrCacheMiss
  | ErrNew (msg : string)
  | ErrText (text : string)
  | ErrWrap (msg : string) (inner : error).

(** [err == target], the comparison [errors.Is] makes at each link of the
    chain. *)
Definition error_eqb_head (e target : error) : bool :=
  match e, target with
  | ErrCacheMiss, ErrCacheMiss => true
  | ErrText a, ErrText b => String.eqb a b
  | _, _ => false
  end.

(** [errors.Is(err, target)] on a non-nil [err]: walk the Unwrap chain. *)
Fixpoint errors_Is_chain (e target : error) : bool :=
  error_eqb_head e target ||
  match e with
  | ErrWrap _ inner => errors_Is_chain inner target
  | _ => false
  end.

(** [errors.Is(err, target)]: a nil [err] matches no non-nil target. *)
Definition errors_Is (err : option error) (target : error) : bool :=
  match err with
  | None => false
  | Some e => errors_Is_chain e target
  end.

(** Go's [any]: the decorators never inspect it. *)
Inductive any : Type :=
  | AnyNil
  | AnyString (s : string)
  | AnyInt (z : Z).

(** Outcome of a call that may panic. *)
Inductive outcome (A : Type) : Type :=
  | Done (a : A)
  | Panic (msg : string).
Arguments Done {A} a.
Arguments Panic {A} msg.

End Go.
Import Go.

(** ** The capability interfaces (package gouache) *)

Module gouache.

(** [type Cache interface { Get; Set; Delete }] over a backend state [C]. *)
Record Cache (C : Type) : Type := {
  cGet    : string -> C -> (any * option error) * C;
  cSet    : string -> any -> C -> option error * C;
  cDelete : string -> C -> option error * C
}.
Arguments cGet {C} _ _ _.
Arguments cSet {C} _ _ _ _.
Arguments cDelete {C} _ _ _.

(** [type Database interface { Select; Upsert; Delete }] over a state [D]. *)
Record Database (D : Type) : Type := {
  dSelect : string -> D -> (any * option error) * D;
  dUpsert : string -> any -> D -> option error * D;
  dDelete : string -> D -> option error * D
}.
Arguments dSelect {D} _ _ _.
Arguments dUpsert {D} _ _ _ _.
Arguments dDelete {D} _ _ _.

End gouache.
Import gouache.

(** ** sample.Cache: the in-memory cache over [sync.Map] *)

Module sample.

Definition Get (key : string) (m : gmap string any)
  : (any * option error) * gmap string any :=
  match m !! key with
  | None => ((AnyNil, Some ErrCacheMiss), m)
  | Some val => ((val, None), m)
  end.

Definition Set_ (key : string) (val : any) (m : gmap string any)
  : option error * gmap string any :=
  (None, <[key := val]> m).

Definition Delete (key : string) (m : gmap string any)
  : option error * gmap string any :=
  (None, delete key m).

Definition Cache : gouache.Cache (gmap string any) :=
  {| cGet := Get; cSet := Set_; cDelete := Delete |}.

End sample.

(** ** ddd: the delayed double delete decorator (ddd/cache.go) *)

Module ddd.

(** [type Gopher func(f func()) error].  The work [f] is an opaque closure:
    all an implementation can do with it is call it before returning, hand it
    to goroutines that run it later, or drop it, and then return an error or
    nil.  A call of a Gopher is therefore described by its [Disposal]; the
    decision may depend on the scheduler's own state [G]. *)
Record Disposal : Type := {
  verdict     : option error;  (* the returned error *)
  inline_runs : nat;           (* calls of f before Gopher returns *)
  spawned     : nat            (* goroutines started that will call f *)
}.

Definition Gopher (G : Type) : Type := G -> Disposal * G.

(** The closure handed to the Gopher by Set and Delete.  Both closures have
    the same text; they capture the key and the two durations. *)
Record Task : Type := {
  taskKey     : string;
  taskDelay   : Z;   (* cache.Options.DelayDuration, in nanoseconds *)
  taskTimeout : Z    (* cache.Options.DeleteTimeout, in nanoseconds *)
}.

(** Calls that leave the decorator, in the order they happen. *)
Inductive Event : Type :=
  | EvCacheGet (key : string)
  | EvCacheSet (key : string) (val : any)
  | EvCacheDelete (key : string)
  | EvSelect (key : string)
  | EvUpsert (key : string) (val : any)
  | EvDbDelete (key : string)
  | EvGopher (t : Task)
  | EvErrorHandler (e : error).

Definition Millisecond : Z := 1000000.
Definition Second : Z := 1000000000.

Section Decorator.

Context {C D G : Type}.

(** [type options struct].  [ErrorHandler] is a [func(error)] whose own
    effect lies outside the decorator: its calls are recorded as
    [EvErrorHandler] events, whichever handler is configured. *)
Record options : Type := {
  DelayDuration : Z;
  DeleteTimeout : Z;
  Gopher_       : option (Gopher G)
}.

Definition Option_ : Type := options -> options.



Definition WithGopher (gopher : option (Gopher G)) : Option_ :=
  fun o => {| DelayDuration := DelayDuration o;
              DeleteTimeout := DeleteTimeout o;
              Gopher_ := gopher |}.

Definition Apply (o : options) (opts : list Option_) : options :=
  fold_left (fun acc opt => opt acc) opts o.

(** The default Gopher: [go f(); return nil]. *)
Definition goGopher : Gopher G :=
  fun g => ({| verdict := None; inline_runs := 0; spawned := 1 |}, g).

Definition Correct (o : options) : options :=
  {| DelayDuration :=
       if DelayDuration o <=? 0 then 500 * Millisecond else DelayDuration o;
     DeleteTimeout :=
       if DeleteTimeout o <=? 0 then 500 * Second else DeleteTimeout o;
     Gopher_ :=
       match Gopher_ o with
       | None => Some goGopher
       | Some g => Some g
       end |}.

Definition newOptions (opts : list Option_) : options :=
  Correct (Apply {| DelayDuration := 0; DeleteTimeout := 0; Gopher_ := None |}
                 opts).

(** [type cache struct]. *)
Record cache : Type := {
  Options  : options;
  Cache    : gouache.Cache C;
  Database : gouache.Database D
}.

Definition New (c : gouache.Cache C) (d : gouache.Database D)
    (opts : list Option_) : cache :=
  {| Options := newOptions opts; Cache := c; Database := d |}.

(** The field is non-nil in every value [New] returns; the nil case of this
    accessor is not reached from there. *)
Definition gopherOf (o : options) : Gopher G :=
  match Gopher_ o with
  | Some g => g
  | None => goGopher
  end.

(** Everything a call can touch: the two backends, the scheduler, the
    goroutines started and not yet run, and the trace. *)
Record World : Type := {
  cacheSt  : C;
  dbSt     : D;
  gopherSt : G;
  pending  : list Task;
  trace    : list Event
}.

Definition M (A : Type) : Type := World -> A * World.

Definition ret {A : Type} (a : A) : M A := fun w => (a, w).

Definition bind {A B : Type} (m : M A) (f : A -> M B) : M B :=
  fun w => let (a, w') := m w in f a w'.

Definition emit (e : Event) : M unit :=
  fun w => (tt, {| cacheSt := cacheSt w; dbSt := dbSt w;
                   gopherSt := gopherSt w; pending := pending w;
                   trace := trace w ++ [e] |}).

Definition onCache {A : Type} (f : C -> A * C) : M A :=
  fun w => let (a, c') := f (cacheSt w) in
           (a, {| cacheSt := c'; dbSt := dbSt w; gopherSt := gopherSt w;
                  pending := pending w; trace := trace w |}).

Definition onDatabase {A : Type} (f : D -> A * D) : M A :=
  fun w => let (a, d') := f (dbSt w) in
           (a, {| cacheSt := cacheSt w; dbSt := d'; gopherSt := gopherSt w;
                  pending := pending w; trace := trace w |}).

Definition onGopher {A : Type} (f : G -> A * G) : M A :=
  fun w => let (a, g') := f (gopherSt w) in
           (a, {| cacheSt := cacheSt w; dbSt := dbSt w; gopherSt := g';
                  pending := pending w; trace := trace w |}).

Definition spawn (ts : list Task) : M unit :=
  fun w => (tt, {| cacheSt := cacheSt w; dbSt := dbSt w;
                   gopherSt := gopherSt w; pending := pending w ++ ts;
                   trace := trace w |}).

Notation "x <- m ;; k" := (bind m (fun x => k))
  (at level 100, m at next level, right associativity).

(** Calls through the two interfaces and of the error handler. *)
Definition cacheGet (c : cache) (key : string) : M (any * option error) :=
  _ <- emit (EvCacheGet key);; onCache (cGet (Cache c) key).

Definition cacheSet (c : cache) (key : string) (val : any)
  : M (option error) :=
  _ <- emit (EvCacheSet key val);; onCache (cSet (Cache c) key val).

Definition cacheDelete (c : cache) (key : string) : M (option error) :=
  _ <- emit (EvCacheDelete key);; onCache (cDelete (Cache c) key).

Definition dbSelect (c : cache) (key : string) : M (any * option error) :=
  _ <- emit (EvSelect key);; onDatabase (dSelect (Database c) key).

Definition dbUpsert (c : cache) (key : string) (val : any)
  : M (option error) :=
  _ <- emit (EvUpsert key val);; onDatabase (dUpsert (Database c) key val).

Definition dbDelete (c : cache) (key : string) : M (option error) :=
  _ <- emit (EvDbDelete key);; onDatabase (dDelete (Database c) key).

Definition errorHandler (e : error) : M unit := emit (EvErrorHandler e).

(** [func (cache *cache) Get]. *)
Definition Get (c : cache) (key : string) : M (any * option error) :=
  r <- cacheGet c key;;
  let (val, err) := r in
  if errors_Is err ErrCacheMiss then
    r' <- dbSelect c key;;
    let (val', err') := r' in
    match err' with
    | Some e => ret (AnyNil, Some e)
    | None => serr <- cacheSet c key val';; ret (val', serr)
    end
  else ret (val, err).

(** The body of the closure of Set and of Delete: sleep, derive the
    context, delete from the cache, report a failure to the handler.  It is
    a [func()]: nothing is returned. *)
Definition delayedDelete (c : cache) (t : Task) : M unit :=
  err <- cacheDelete c (taskKey t);;
  match err with
  | Some e => errorHandler e
  | None => ret tt
  end.

Fixpoint times (n : nat) (m : M unit) : M unit :=
  match n with
  | O => ret tt
  | S n' => _ <- m;; times n' m
  end.

Definition closure (c : cache) (key : string) : Task :=
  {| taskKey := key;
     taskDelay := DelayDuration (Options c);
     taskTimeout := DeleteTimeout (Options c) |}.

(** [cache.Options.Gopher(func() { ... })]. *)
Definition callGopher (c : cache) (t : Task) : M (option error) :=
  _ <- emit (EvGopher t);;
  d <- onGopher (gopherOf (Options c));;
  _ <- times (inline_runs d) (delayedDelete c t);;
  _ <- spawn (replicate (spawned d) t);;
  ret (verdict d).

(** [func (cache *cache) Set]. *)
Definition Set_ (c : cache) (key : string) (val : any) : M (option error) :=
  err <- cacheDelete c key;;
  match err with
  | Some e => ret (Some e)
  | None =>
      err <- dbUpsert c key val;;
      match err with
      | Some e => ret (Some e)
      | None => callGopher c (closure c key)
      end
  end.

(** [func (cache *cache) Delete]. *)
Definition Delete (c : cache) (key : string) : M (option error) :=
  err <- cacheDelete c key;;
  match err with
  | Some e => ret (Some e)
  | None =>
      err <- dbDelete c key;;
      match err with
      | Some e => ret (Some e)
      | None => callGopher c (closure c key)
      end
  end.

(** One goroutine started earlier gets to run its closure. *)
Definition runPending (c : cache) : M bool :=
  fun w =>
    match pending w with
    | [] => (false, w)
    | t :: ts =>
        let w0 := {| cacheSt := cacheSt w; dbSt := dbSt w;
                     gopherSt := gopherSt w; pending := ts;
                     trace := trace w |} in
        let (_, w') := delayedDelete c t w0 in (true, w')
    end.

(** The errors handed to the error handler, read off a trace. *)
Fixpoint handled (tr : list Event) : list error :=
  match tr with
  | [] => []
  | EvErrorHandler e :: tr' => e :: handled tr'
  | _ :: tr' => handled tr'
  end.

(** What [n] deletions of [key] in a row return, and the state of the cache
    after them, starting from the state [cst]. *)
Fixpoint deletions (ch : gouache.Cache C) (key : string) (n : nat) (cst : C)
  : list (option error) * C :=
  match n with
  | O => ([], cst)
  | S n' =>
      let (err, cst') := cDelete ch key cst in
      let (errs, cst'') := deletions ch key n' cst' in
      (err :: errs, cst'')
  end.

End Decorator.

Arguments options : clear implicits.
Arguments cache : clear implicits.
Arguments World : clear implicits.
Arguments M : clear implicits.

(** The events one run of the closure for [key] adds: the cache deletion
    and, when it failed, the call of the error handler. *)
Definition repairEvents (key : string) (err : option error) : list Event :=
  EvCacheDelete key ::
  match err with
  | Some e => [EvErrorHandler e]
  | None => []
  end.

(** A run of the closure is a deletion from the cache or a call of the
    handler, nothing else. *)
Definition isRepair (key : string) (ev : Event) : Prop :=
  ev = EvCacheDelete key \/ exists e, ev = EvErrorHandler e.

End ddd.

(** ** sharded: the sharding router (sharded/cache.go) *)

Module sharded.

Definition uint32 (z : Z) : Z := z mod 2 ^ 32.
Definition uint64 (z : Z) : Z := z mod 2 ^ 64.

(** The target the program is built for fixes the width of Go's [int]:
    64 bits (amd64, arm64) or 32 bits (386, arm). *)
Class Arch : Type := {
  intSize : Z;
  intSize_32_or_64 : intSize = 32 \/ intSize = 64
}.

(** Conversion to [int]: wraps into [-2^(intSize-1), 2^(intSize-1)). *)
Definition int `{Arch} (z : Z) : Z :=
  (z + 2 ^ (intSize - 1)) mod 2 ^ intSize - 2 ^ (intSize - 1).

Definition byteZ (b : Byte.byte) : Z := Z.of_N (Byte.to_N b).

(** [binary.BigEndian.Uint32(b)] for a slice of at least four bytes. *)
Definition BigEndian_Uint32 (b : list Byte.byte) : Z :=
  match b with
  | b0 :: b1 :: b2 :: b3 :: _ =>
      Z.lor (Z.lor (Z.lor (byteZ b3) (Z.shiftl (byteZ b2) 8))
                   (Z.shiftl (byteZ b1) 16))
            (Z.shiftl (byteZ b0) 24)
  | _ => 0
  end.

(** A [hash.Hash] value: an object with its own state.  [Sum32] and [Sum64]
    are present exactly when the dynamic type also implements [hash.Hash32]
    or [hash.Hash64]; the type assertions of [bucket] look at that. *)
Record Hash : Type := {
  HState : Type;
  hstate : HState;
  Write  : list Byte.byte -> HState -> option error * HState;
  Size   : HState -> Z;
  Sum    : list Byte.byte -> HState -> list Byte.byte;
  Sum32  : option (HState -> Z);
  Sum64  : option (HState -> Z)
}.

(** [type HashFactory func(ctx, key) (hash.Hash, error)]. *)
Definition HashFactory : Type := string -> Hash + error.

(** [hash/fnv]: FNV-1a, the hash of the default factory, and its 64-bit
    variant. *)
Definition fnv32a_step (h : Z) (b : Byte.byte) : Z :=
  uint32 (Z.lxor h (byteZ b) * 16777619).

Definition fnv64a_step (h : Z) (b : Byte.byte) : Z :=
  uint64 (Z.lxor h (byteZ b) * 1099511628211).

Definition be_bytes (width : nat) (z : Z) : list Byte.byte :=
  map (fun i : nat =>
         match Byte.of_N (Z.to_N (Z.land (Z.shiftr z (8 * Z.of_nat i)) 255)) with
         | Some b => b
         | None => Byte.x00
         end)
      (rev (seq 0 width)).

Definition fnv_New32a : Hash :=
  {| HState := Z;
     hstate := 2166136261;
     Write := fun p h => (None, fold_left fnv32a_step p h);
     Size := fun _ => 4;
     Sum := fun b h => b ++ be_bytes 4 h;
     Sum32 := Some (fun h => h);
     Sum64 := None |}.

Definition fnv_New64a : Hash :=
  {| HState := Z;
     hstate := 14695981039346656037;
     Write := fun p h => (None, fold_left fnv64a_step p h);
     Size := fun _ => 8;
     Sum := fun b h => b ++ be_bytes 8 h;
     Sum32 := None;
     Sum64 := Some (fun h => h) |}.

Section Router.

Context {C : Type} {arch : Arch}.

(** [type options struct]. *)
Record options : Type := {
  HashFactory_ : option HashFactory
}.

Definition Option_ : Type := options -> options.

Definition WithHashFactory (hashFactory : option HashFactory) : Option_ :=
  fun _ => {| HashFactory_ := hashFactory |}.

Definition Apply (o : options) (opts : list Option_) : options :=
  fold_left (fun acc opt => opt acc) opts o.

Definition defaultHashFactory : HashFactory := fun _ => inl fnv_New32a.

Definition Correct (o : options) : options :=
  match HashFactory_ o with
  | None => {| HashFactory_ := Some defaultHashFactory |}
  | Some _ => o
  end.

Definition newOptions (opts : list Option_) : options :=
  Correct (Apply {| HashFactory_ := None |} opts).

(** A bucket is a [gouache.Cache] object: its methods and its state. *)
Record Bucket : Type := {
  impl  : gouache.Cache C;
  state : C
}.

(** [type cache struct]. *)
Record cache : Type := {
  Options : options;
  Buckets : list Bucket
}.

(** [func New]: panics on an empty slice. *)
Definition New (buckets : list Bucket) (opts : list Option_) : outcome cache :=
  if (length buckets =? 0)%nat then Panic "gouache: buckets is empty"
  else Done {| Options := newOptions opts; Buckets := buckets |}.

(** Non-nil in every value [New] returns. *)
Definition hashFactoryOf (o : options) : HashFactory :=
  match HashFactory_ o with
  | Some f => f
  | None => defaultHashFactory
  end.

(** The index expression of [bucket], for a slice of length [n]: the part
    of [func (cache *cache) bucket] before the slice is indexed.  [inr] is
    the error return. *)
Definition bucketIndex (hf : HashFactory) (n : Z) (key : string)
  : outcome (Z + error) :=
  match hf key with
  | inr err => Done (inr err)
  | inl h =>
      match Write h (String.list_byte_of_string key) (hstate h) with
      | (Some err, _) => Done (inr err)
      | (None, st) =>
          if Size h st =? 4 then
            match Sum32 h with
            | None => Panic "interface conversion: not hash.Hash32"
            | Some sum32 =>
                if uint32 n =? 0 then Panic "integer divide by zero"
                else Done (inl (uint32 (sum32 st) mod uint32 n))
            end
          else if Size h st =? 8 then
            match Sum64 h with
            | None => Panic "interface conversion: not hash.Hash64"
            | Some sum64 =>
                if uint64 n =? 0 then Panic "integer divide by zero"
                else Done (inl (uint64 (sum64 st) mod uint64 n))
            end
          else
            let sum := Sum h [] st in
            if (length sum <? 4)%nat then Done (inl 0)
            else
              let sum32 := int (BigEndian_Uint32 (firstn 4 sum)) in
              if n =? 0 then Panic "integer divide by zero"
              else Done (inl (Z.rem sum32 n))
      end
  end.

(** [cache.Buckets[i]]: a run-time panic when out of range. *)
Definition index (bs : list Bucket) (i : Z) : outcome (nat * Bucket) :=
  if i <? 0 then Panic "index out of range"
  else match bs !! Z.to_nat i with
       | Some b => Done (Z.to_nat i, b)
       | None => Panic "index out of range"
       end.

(** [func (cache *cache) bucket]. *)
Definition bucket (c : cache) (key : string)
  : outcome ((nat * Bucket) + error) :=
  match bucketIndex (hashFactoryOf (Options c))
                    (Z.of_nat (length (Buckets c))) key with
  | Panic msg => Panic msg
  | Done (inr err) => Done (inr err)
  | Done (inl i) =>
      match index (Buckets c) i with
      | Panic msg => Panic msg
      | Done ib => Done (inl ib)
      end
  end.

Definition store (c : cache) (i : nat) (b : Bucket) (st : C) : cache :=
  {| Options := Options c;
     Buckets := <[i := {| impl := impl b; state := st |}]> (Buckets c) |}.

(** [func (cache *cache) Get]. *)
Definition Get (c : cache) (key : string)
  : outcome ((any * option error) * cache) :=
  match bucket c key with
  | Panic msg => Panic msg
  | Done (inr err) => Done ((AnyNil, Some err), c)
  | Done (inl (i, b)) =>
      let (r, st) := cGet (impl b) key (state b) in Done (r, store c i b st)
  end.

(** [func (cache *cache) Set]. *)
Definition Set_ (c : cache) (key : string) (val : any)
  : outcome (option error * cache) :=
  match bucket c key with
  | Panic msg => Panic msg
  | Done (inr err) => Done (Some err, c)
  | Done (inl (i, b)) =>
      let (r, st) := cSet (impl b) key val (state b) in Done (r, store c i b st)
  end.

(** [func (cache *cache) Delete]. *)
Definition Delete (c : cache) (key : string)
  : outcome (option error * cache) :=
  match bucket c key with
  | Panic msg => Panic msg
  | Done (inr err) => Done (Some err, c)
  | Done (inl (i, b)) =>
      let (r, st) := cDelete (impl b) key (state b) in Done (r, store c i b st)
  end.

(** [bucket] returns the bucket at index [i]. *)
Definition selects (c : cache) (key : string) (i : Z) : Prop :=
  exists b, Buckets c !! Z.to_nat i = Some b /\
            bucket c key = Done (inl (Z.to_nat i, b)).

(** [bucket] returns [err], and so do Get, Set and Delete, with every bucket
    as it was. *)
Definition propagates (c : cache) (key : string) (err : error) : Prop :=
  bucket c key = Done (inr err) /\
  Get c key = Done ((AnyNil, Some err), c) /\
  (forall val, Set_ c key val = Done (Some err, c)) /\
  Delete c key = Done (Some err, c).

End Router.

Arguments options : clear implicits.
Arguments Bucket : clear implicits.
Arguments cache : clear implicits.

End sharded.

(** ** redis: the adapter over a Redis client (redis/cache.go) *)

Module redis.

(** The part of [redis.Cmdable] the adapter calls, over the state [R] of the
    server: [Get(ctx, key).Result()], [Set(ctx, key, data, ttl).Err()] and
    [Del(ctx, key).Err()].  A time-to-live is a [time.Duration]. *)
Record Cmdable (R : Type) : Type := {
  rGet : string -> R -> (string * option error) * R;
  rSet : string -> string -> Z -> R -> option error * R;
  rDel : string -> R -> option error * R
}.
Arguments rGet {R} _ _ _.
Arguments rSet {R} _ _ _ _ _.
Arguments rDel {R} _ _ _.

Section Adapter.

Context {R : Type}.

(** [errors.Is(err, redis.Nil)]: the sentinel belongs to the client
    library. *)
Variable isNil : option error -> bool.

(** [type Cache struct]; a nil hook is [None]. *)
Record Cache : Type := {
  Client    : Cmdable R;
  TTL       : option (string -> any -> Z * option error);
  Marshal   : option (string -> any -> string * option error);
  Unmarshal : option (string -> string -> any * option error)
}.

(** [func (cache *Cache) Get]. *)
Definition Get (cache : Cache) (key : string) (r : R)
  : (any * option error) * R :=
  let '((data, err), r') := rGet (Client cache) key r in
  if isNil err then ((AnyNil, Some ErrCacheMiss), r')
  else
    match err with
    | Some e => ((AnyNil, Some e), r')
    | None =>
        match Unmarshal cache with
        | None => ((AnyString data, None), r')
        | Some unmarshal =>
            match unmarshal key data with
            | (_, Some e) => ((AnyNil, Some e), r')
            | (obj, None) => ((obj, None), r')
            end
        end
    end.

(** The part of Set after the time-to-live is known. *)
Definition store (cache : Cache) (key : string) (val : any) (ttl : Z) (r : R)
  : option error * R :=
  match val with
  | AnyString data => rSet (Client cache) key data ttl r
  | _ =>
      match Marshal cache with
      | None => (Some (ErrNew "gouache: Marshal is nil"), r)
      | Some marshal =>
          match marshal key val with
          | (_, Some e) => (Some e, r)
          | (data, None) => rSet (Client cache) key data ttl r
          end
      end
  end.

(** [func (cache *Cache) Set]. *)
Definition Set_ (cache : Cache) (key : string) (val : any) (r : R)
  : option error * R :=
  match TTL cache with
  | None => store cache key val 0 r
  | Some ttlOf =>
      match ttlOf key val with
      | (_, Some e) => (Some e, r)
      | (ttl, None) => store cache key val ttl r
      end
  end.

(** [func (cache *Cache) Delete]. *)
Definition Delete (cache : Cache) (key : string) (r : R) : option error * R :=
  rDel (Client cache) key r.

(** The adapter as a [gouache.Cache]. *)
Definition asCache (cache : Cache) : gouache.Cache R :=
  {| cGet := Get cache; cSet := Set_ cache; cDelete := Delete cache |}.

End Adapter.

Arguments Cache : clear implicits.

End redis.

(** ** Collaborators used to run the decorators on concrete inputs *)

Module doubles.

(** A cache that fails on demand: every call consumes one entry of a fault
    script; [Some e] makes the call fail with [e] and leaves the store as it
    is, [None] (or an exhausted script) lets the call through to
    [sample.Cache]. *)
Record Flaky : Type := {
  faults : list (option error);
  store  : gmap string any
}.

Definition nextFault (f : Flaky) : option error * Flaky :=
  match faults f with
  | [] => (None, f)
  | e :: rest => (e, {| faults := rest; store := store f |})
  end.

Definition through {A : Type} (f : Flaky)
    (op : gmap string any -> A * gmap string any) : A * Flaky :=
  let (a, m) := op (store f) in (a, {| faults := faults f; store := m |}).

Definition flakyCache : gouache.Cache Flaky :=
  {| cGet := fun key f =>
       match nextFault f with
       | (Some e, f') => ((AnyNil, Some e), f')
       | (None, f') => through f' (sample.Get key)
       end;
     cSet := fun key val f =>
       match nextFault f with
       | (Some e, f') => (Some e, f')
       | (None, f') => through f' (sample.Set_ key val)
       end;
     cDelete := fun key f =>
       match nextFault f with
       | (Some e, f') => (Some e, f')
       | (None, f') => through f' (sample.Delete key)
       end |}.

(** A table as database: Select of an absent key succeeds with a nil
    value. *)
Definition tableDatabase : gouache.Database (gmap string any) :=
  {| dSelect := fun key m =>
       match m !! key with
       | Some val => ((val, None), m)
       | None => ((AnyNil, None), m)
       end;
     dUpsert := fun key val m => (None, <[key := val]> m);
     dDelete := fun key m => (None, delete key m) |}.

(** A table as database that reports an absent key as an error. *)
Definition strictDatabase (notFound : error)
  : gouache.Database (gmap string any) :=
  {| dSelect := fun key m =>
       match m !! key with
       | Some val => ((val, None), m)
       | None => ((AnyNil, Some notFound), m)
       end;
     dUpsert := fun key val m => (None, <[key := val]> m);
     dDelete := fun key m => (None, delete key m) |}.

(** A Gopher that runs the work before returning: [f(); return nil]. *)
Definition inlineGopher : ddd.Gopher unit :=
  fun g => ({| ddd.verdict := None; ddd.inline_runs := 1;
               ddd.spawned := 0 |}, g).

(** A Gopher that refuses every submission. *)
Definition rejectGopher (e : error) : ddd.Gopher unit :=
  fun g => ({| ddd.verdict := Some e; ddd.inline_runs := 0;
               ddd.spawned := 0 |}, g).

Definition world {C D : Type} (c : C) (d : D) : ddd.World C D unit :=
  {| ddd.cacheSt := c; ddd.dbSt := d; ddd.gopherSt := tt;
     ddd.pending := []; ddd.trace := [] |}.

(** A hash of width 4 that is not a [hash.Hash32]. *)
Definition plain4 : sharded.Hash :=
  {| sharded.HState := unit;
     sharded.hstate := tt;
     sharded.Write := fun _ s => (None, s);
     sharded.Size := fun _ => 4;
     sharded.Sum := fun b _ => b ++ [Byte.x00; Byte.x00; Byte.x00; Byte.x07];
     sharded.Sum32 := None;
     sharded.Sum64 := None |}.

(** The same, and its Write fails. *)
Definition broken4 (e : error) : sharded.Hash :=
  {| sharded.HState := unit;
     sharded.hstate := tt;
     sharded.Write := fun _ s => (Some e, s);
     sharded.Size := fun _ => 4;
     sharded.Sum := fun b _ => b ++ [Byte.x00; Byte.x00; Byte.x00; Byte.x07];
     sharded.Sum32 := None;
     sharded.Sum64 := None |}.

(** A hash of width 8 that is not a [hash.Hash64]. *)
Definition plain8 : sharded.Hash :=
  {| sharded.HState := unit;
     sharded.hstate := tt;
     sharded.Write := fun _ s => (None, s);
     sharded.Size := fun _ => 8;
     sharded.Sum := fun b _ => b ++ repeat Byte.x01 8;
     sharded.Sum32 := None;
     sharded.Sum64 := None |}.

(** A 16-byte digest (the width of MD5), and a 2-byte one. *)
Definition wide16 : sharded.Hash :=
  {| sharded.HState := unit;
     sharded.hstate := tt;
     sharded.Write := fun _ s => (None, s);
     sharded.Size := fun _ => 16;
     sharded.Sum := fun b _ =>
       b ++ [Byte.xff; Byte.x00; Byte.x00; Byte.x05] ++ repeat Byte.x00 12;
     sharded.Sum32 := None;
     sharded.Sum64 := None |}.

Definition short2 : sharded.Hash :=
  {| sharded.HState := unit;
     sharded.hstate := tt;
     sharded.Write := fun _ s => (None, s);
     sharded.Size := fun _ => 2;
     sharded.Sum := fun b _ => b ++ [Byte.xab; Byte.xcd];
     sharded.Sum32 := None;
     sharded.Sum64 := None |}.

Definition memBucket (m : gmap string any) : sharded.Bucket (gmap string any) :=
  {| sharded.impl := sample.Cache; sharded.state := m |}.

(** The two kinds of target.  Runs on concrete routers are on the 64-bit
    one unless they name the other. *)
#[global] Instance amd64 : sharded.Arch :=
  {| sharded.intSize := 64; sharded.intSize_32_or_64 := or_intror eq_refl |}.

Definition i386 : sharded.Arch :=
  {| sharded.intSize := 32; sharded.intSize_32_or_64 := or_introl eq_refl |}.

(** Slice lengths beyond the range of [uint32]. *)
Definition manyBuckets : nat := Z.to_nat (2 ^ 32 + 1).
Definition fullBuckets : nat := Z.to_nat (2 ^ 32).

Definition unwritable : error := ErrNew "hash: write failed".
Definition down : error := ErrNew "cache down".
Definition busy : error := ErrNew "scheduler busy".

(** Routers: two buckets and the default hash; three buckets and a given
    hash; more buckets than a uint32 counts. *)
Definition twoBuckets : sharded.cache (gmap string any) :=
  {| sharded.Options := sharded.newOptions [];
     sharded.Buckets := [memBucket ∅; memBucket ∅] |}.

Definition threeBuckets (h : sharded.Hash) : sharded.cache (gmap string any) :=
  {| sharded.Options :=
       sharded.newOptions [sharded.WithHashFactory (Some (fun _ => inl h))];
     sharded.Buckets := [memBucket ∅; memBucket ∅; memBucket ∅] |}.

Definition crowded : sharded.cache (gmap string any) :=
  {| sharded.Options := sharded.newOptions [];
     sharded.Buckets := replicate manyBuckets (memBucket ∅) |}.

Definition packed : sharded.cache (gmap string any) :=
  {| sharded.Options := sharded.newOptions [];
     sharded.Buckets := replicate fullBuckets (memBucket ∅) |}.

(** A Redis server as a table of strings; a missing key answers
    [redis.Nil], the client's [proto.RedisError("redis: nil")]. *)
Definition redisNil : error := ErrText "redis: nil".

Definition isRedisNil (err : option error) : bool := errors_Is err redisNil.

Definition tableRedis : redis.Cmdable (gmap string string) :=
  {| redis.rGet := fun key m =>
       match m !! key with
       | Some data => ((data, None), m)
       | None => ((EmptyString, Some redisNil), m)
       end;
     redis.rSet := fun key data _ m => (None, <[key := data]> m);
     redis.rDel := fun key m => (None, delete key m) |}.

(** Integers written in unary, as a pair of hooks. *)
Definition unaryMarshal (_ : string) (obj : any) : string * option error :=
  match obj with
  | AnyInt z =>
      if z <? 0 then (EmptyString, Some (ErrNew "negative"))
      else (String.concat "" (repeat "I"%string (Z.to_nat z)), None)
  | _ => (EmptyString, Some (ErrNew "unsupported"))
  end.

Definition unaryUnmarshal (_ : string) (data : string) : any * option error :=
  (AnyInt (Z.of_nat (String.length data)), None).

Definition unaryRedis : redis.Cache (gmap string string) :=
  {| redis.Client := tableRedis;
     redis.TTL := None;
     redis.Marshal := Some unaryMarshal;
     redis.Unmarshal := Some unaryUnmarshal |}.

Definition rawRedis : redis.Cache (gmap string string) :=
  {| redis.Client := tableRedis;
     redis.TTL := None;
     redis.Marshal := None;
     redis.Unmarshal := None |}.

Definition failingTTL (e : error) : redis.Cache (gmap string string) :=
  {| redis.Client := tableRedis;
     redis.TTL := Some (fun _ _ => (0, Some e));
     redis.Marshal := Some unaryMarshal;
     redis.Unmarshal := Some unaryUnmarshal |}.

End doubles.

(** * Properties of the delayed double delete decorator *)

Module ddd_facts.
Import ddd.

Section Facts.

Context {C D G : Type}.
Implicit Types (c : cache C D G) (w : World C D G) (t : Task).

(** What a world looks like after one recorded interface call. *)
Lemma cacheGet_run c key w :
  cacheGet c key w =
  (fst (cGet (Cache c) key (cacheSt w)),
   {| cacheSt := snd (cGet (Cache c) key (cacheSt w)); dbSt := dbSt w;
      gopherSt := gopherSt w; pending := pending w;
      trace := trace w ++ [EvCacheGet key] |}).
Proof.
  unfold cacheGet, bind, emit, onCache; simpl.
  destruct (cGet (Cache c) key (cacheSt w)); reflexivity.
Qed.

Lemma cacheSet_run c key val w :
  cacheSet c key val w =
  (fst (cSet (Cache c) key val (cacheSt w)),
   {| cacheSt := snd (cSet (Cache c) key val (cacheSt w)); dbSt := dbSt w;
      gopherSt := gopherSt w; pending := pending w;
      trace := trace w ++ [EvCacheSet key val] |}).
Proof.
  unfold cacheSet, bind, emit, onCache; simpl.
  destruct (cSet (Cache c) key val (cacheSt w)); reflexivity.
Qed.

Lemma cacheDelete_run c key w :
  cacheDelete c key w =
  (fst (cDelete (Cache c) key (cacheSt w)),
   {| cacheSt := snd (cDelete (Cache c) key (cacheSt w)); dbSt := dbSt w;
      gopherSt := gopherSt w; pending := pending w;
      trace := trace w ++ [EvCacheDelete key] |}).
Proof.
  unfold cacheDelete, bind, emit, onCache; simpl.
  destruct (cDelete (Cache c) key (cacheSt w)); reflexivity.
Qed.

Lemma dbSelect_run c key w :
  dbSelect c key w =
  (fst (dSelect (Database c) key (dbSt w)),
   {| cacheSt := cacheSt w; dbSt := snd (dSelect (Database c) key (dbSt w));
      gopherSt := gopherSt w; pending := pending w;
      trace := trace w ++ [EvSelect key] |}).
Proof.
  unfold dbSelect, bind, emit, onDatabase; simpl.
  destruct (dSelect (Database c) key (dbSt w)); reflexivity.
Qed.

Lemma dbUpsert_run c key val w :
  dbUpsert c key val w =
  (fst (dUpsert (Database c) key val (dbSt w)),
   {| cacheSt := cacheSt w;
      dbSt := snd (dUpsert (Database c) key val (dbSt w));
      gopherSt := gopherSt w; pending := pending w;
      trace := trace w ++ [EvUpsert key val] |}).
Proof.
  unfold dbUpsert, bind, emit, onDatabase; simpl.
  destruct (dUpsert (Database c) key val (dbSt w)); reflexivity.
Qed.

Lemma dbDelete_run c key w :
  dbDelete c key w =
  (fst (dDelete (Database c) key (dbSt w)),
   {| cacheSt := cacheSt w; dbSt := snd (dDelete (Database c) key (dbSt w));
      gopherSt := gopherSt w; pending := pending w;
      trace := trace w ++ [EvDbDelete key] |}).
Proof.
  unfold dbDelete, bind, emit, onDatabase; simpl.
  destruct (dDelete (Database c) key (dbSt w)); reflexivity.
Qed.

Lemma handled_app (tr1 tr2 : list Event) :
  handled (tr1 ++ tr2) = handled tr1 ++ handled tr2.
Proof.
  induction tr1 as [|e tr1 IH]; simpl; [reflexivity|].
  destruct e; simpl; rewrite ?IH; reflexivity.
Qed.

Lemma delayedDelete_run c t w :
  delayedDelete c t w =
  (tt,
   {| cacheSt := snd (cDelete (Cache c) (taskKey t) (cacheSt w));
      dbSt := dbSt w; gopherSt := gopherSt w; pending := pending w;
      trace := trace w ++
               repairEvents (taskKey t)
                 (fst (cDelete (Cache c) (taskKey t) (cacheSt w))) |}).
Proof.
  unfold delayedDelete, bind. rewrite cacheDelete_run.
  destruct (cDelete (Cache c) (taskKey t) (cacheSt w)) as [[e|] c1]; simpl.
  - unfold errorHandler, emit; simpl. rewrite <- app_assoc. reflexivity.
  - reflexivity.
Qed.

Lemma repairEvents_isRepair key err :
  Forall (isRepair key) (repairEvents key err).
Proof.
  unfold repairEvents.
  constructor; [left; reflexivity|].
  destruct err as [e|]; [|constructor].
  constructor; [right; exists e; reflexivity|constructor].
Qed.

Lemma times_delayedDelete c t n w :
  dbSt (snd (times n (delayedDelete c t) w)) = dbSt w /\
  gopherSt (snd (times n (delayedDelete c t) w)) = gopherSt w /\
  pending (snd (times n (delayedDelete c t) w)) = pending w /\
  exists tail,
    trace (snd (times n (delayedDelete c t) w)) = trace w ++ tail /\
    Forall (isRepair (taskKey t)) tail.
Proof.
  revert w. induction n as [|n IH]; intros w; simpl.
  - repeat split; try reflexivity.
    exists []. rewrite app_nil_r. split; [reflexivity|constructor].
  - unfold bind at 1 2 3 4. rewrite delayedDelete_run.
    match goal with |- context [times n _ ?w1] => specialize (IH w1) end.
    destruct IH as (Hd & Hg & Hp & tail & Ht & Hall). simpl in *.
    repeat split; try assumption.
    eexists. rewrite Ht, <- app_assoc. split; [reflexivity|].
    apply Forall_app. split; [apply repairEvents_isRepair|assumption].
Qed.

Lemma times_zero (m : M C D G unit) w : times 0 m w = (tt, w).
Proof. reflexivity. Qed.

(** The call of the Gopher, unfolded. *)
Lemma callGopher_run c t w :
  callGopher c t w =
  let d := fst (gopherOf (Options c) (gopherSt w)) in
  let w1 := {| cacheSt := cacheSt w; dbSt := dbSt w;
               gopherSt := snd (gopherOf (Options c) (gopherSt w));
               pending := pending w; trace := trace w ++ [EvGopher t] |} in
  let w2 := snd (times (inline_runs d) (delayedDelete c t) w1) in
  (verdict d,
   {| cacheSt := cacheSt w2; dbSt := dbSt w2; gopherSt := gopherSt w2;
      pending := pending w2 ++ replicate (spawned d) t;
      trace := trace w2 |}).
Proof.
  unfold callGopher, bind, emit, onGopher, spawn, ret; simpl.
  destruct (gopherOf (Options c) (gopherSt w)) as [d g1]; simpl.
  destruct (times (inline_runs d) (delayedDelete c t) _) as [[] w2].
  reflexivity.
Qed.

Lemma times_delayedDelete_exact c t n w :
  times n (delayedDelete c t) w =
  (tt,
   {| cacheSt := snd (deletions (Cache c) (taskKey t) n (cacheSt w));
      dbSt := dbSt w; gopherSt := gopherSt w; pending := pending w;
      trace := trace w ++
               flat_map (repairEvents (taskKey t))
                 (fst (deletions (Cache c) (taskKey t) n (cacheSt w))) |}).
Proof.
  revert w. induction n as [|n IH]; intros w.
  - simpl. unfold ret. rewrite app_nil_r. destruct w; reflexivity.
  - cbn [times deletions]. unfold bind. rewrite delayedDelete_run, IH.
    cbn [cacheSt dbSt gopherSt pending trace].
    destruct (cDelete (Cache c) (taskKey t) (cacheSt w)) as [err cst].
    cbn [fst snd].
    destruct (deletions (Cache c) (taskKey t) n cst) as [errs cst'].
    cbn [fst snd flat_map]. rewrite <- app_assoc. reflexivity.
Qed.

Lemma handled_repairs key (errs : list (option error)) :
  handled (flat_map (repairEvents key) errs) = omap id errs.
Proof.
  induction errs as [|err errs IH]; [reflexivity|].
  destruct err as [e|]; simpl; rewrite IH; reflexivity.
Qed.

(** Set and Delete, as the result and the world they leave. *)
Lemma Set_unfolded c key val w :
  Set_ c key val w =
  match cDelete (Cache c) key (cacheSt w) with
  | (Some e, cst) =>
      (Some e,
       {| cacheSt := cst; dbSt := dbSt w; gopherSt := gopherSt w;
          pending := pending w; trace := trace w ++ [EvCacheDelete key] |})
  | (None, cst) =>
      match dUpsert (Database c) key val (dbSt w) with
      | (Some e, dst) =>
          (Some e,
           {| cacheSt := cst; dbSt := dst; gopherSt := gopherSt w;
              pending := pending w;
              trace := trace w ++ [EvCacheDelete key; EvUpsert key val] |})
      | (None, dst) =>
          let (d, gst) := gopherOf (Options c) (gopherSt w) in
          let runs := deletions (Cache c) key (inline_runs d) cst in
          (verdict d,
           {| cacheSt := snd runs; dbSt := dst; gopherSt := gst;
              pending := pending w ++ replicate (spawned d) (closure c key);
              trace := trace w ++
                       [EvCacheDelete key; EvUpsert key val;
                        EvGopher (closure c key)] ++
                       flat_map (repairEvents key) (fst runs) |})
      end
  end.
Proof.
  unfold Set_, bind. rewrite cacheDelete_run.
  destruct (cDelete (Cache c) key (cacheSt w)) as [[e|] cst]; simpl;
    [reflexivity|].
  rewrite dbUpsert_run; simpl.
  destruct (dUpsert (Database c) key val (dbSt w)) as [[e|] dst]; simpl.
  { rewrite <- app_assoc. reflexivity. }
  rewrite callGopher_run; simpl.
  destruct (gopherOf (Options c) (gopherSt w)) as [d gst]; simpl.
  rewrite times_delayedDelete_exact; simpl.
  rewrite <- !app_assoc. reflexivity.
Qed.

Lemma Delete_unfolded c key w :
  Delete c key w =
  match cDelete (Cache c) key (cacheSt w) with
  | (Some e, cst) =>
      (Some e,
       {| cacheSt := cst; dbSt := dbSt w; gopherSt := gopherSt w;
          pending := pending w; trace := trace w ++ [EvCacheDelete key] |})
  | (None, cst) =>
      match dDelete (Database c) key (dbSt w) with
      | (Some e, dst) =>
          (Some e,
           {| cacheSt := cst; dbSt := dst; gopherSt := gopherSt w;
              pending := pending w;
              trace := trace w ++ [EvCacheDelete key; EvDbDelete key] |})
      | (None, dst) =>
          let (d, gst) := gopherOf (Options c) (gopherSt w) in
          let runs := deletions (Cache c) key (inline_runs d) cst in
          (verdict d,
           {| cacheSt := snd runs; dbSt := dst; gopherSt := gst;
              pending := pending w ++ replicate (spawned d) (closure c key);
              trace := trace w ++
                       [EvCacheDelete key; EvDbDelete key;
                        EvGopher (closure c key)] ++
                       flat_map (repairEvents key) (fst runs) |})
      end
  end.
Proof.
  unfold Delete, bind. rewrite cacheDelete_run.
  destruct (cDelete (Cache c) key (cacheSt w)) as [[e|] cst]; simpl;
    [reflexivity|].
  rewrite dbDelete_run; simpl.
  destruct (dDelete (Database c) key (dbSt w)) as [[e|] dst]; simpl.
  { rewrite <- app_assoc. reflexivity. }
  rewrite callGopher_run; simpl.
  destruct (gopherOf (Options c) (gopherSt w)) as [d gst]; simpl.
  rewrite times_delayedDelete_exact; simpl.
  rewrite <- !app_assoc. reflexivity.
Qed.

(** C1: Set deletes the cache entry, then upserts into the database, then
    calls the Gopher, in this order, and does nothing else.  A failed
    deletion is returned at once: the cache is as that deletion left it and
    nothing else is touched.  A failed upsert is returned at once: cache and
    database are as the two calls left them, the Gopher is not called.
    Otherwise the closure for the key is handed to the Gopher and the result
    is what the Gopher returns (nil when it returns nil): the database is as
    the upsert left it, the scheduler as the call left it, the closure is
    pending once for every goroutine the Gopher started, and the cache and
    the trace past the Gopher's call hold what the runs of the closure made
    before the Gopher returned, nothing when there were none. *)
Theorem Set_three_steps_in_order c key val w :
  match cDelete (Cache c) key (cacheSt w) with
  | (Some e, cst) =>
      Set_ c key val w =
      (Some e,
       {| cacheSt := cst; dbSt := dbSt w; gopherSt := gopherSt w;
          pending := pending w; trace := trace w ++ [EvCacheDelete key] |})
  | (None, cst) =>
      match dUpsert (Database c) key val (dbSt w) with
      | (Some e, dst) =>
          Set_ c key val w =
          (Some e,
           {| cacheSt := cst; dbSt := dst; gopherSt := gopherSt w;
              pending := pending w;
              trace := trace w ++ [EvCacheDelete key; EvUpsert key val] |})
      | (None, dst) =>
          let d := fst (gopherOf (Options c) (gopherSt w)) in
          let runs := deletions (Cache c) key (inline_runs d) cst in
          Set_ c key val w =
          (verdict d,
           {| cacheSt := snd runs; dbSt := dst;
              gopherSt := snd (gopherOf (Options c) (gopherSt w));
              pending := pending w ++ replicate (spawned d) (closure c key);
              trace := trace w ++
                       [EvCacheDelete key; EvUpsert key val;
                        EvGopher (closure c key)] ++
                       flat_map (repairEvents key) (fst runs) |}) /\
          Forall (isRepair key) (flat_map (repairEvents key) (fst runs)) /\
          (inline_runs d = 0%nat -> runs = ([], cst))
      end
  end.
Proof.
  rewrite Set_unfolded.
  destruct (cDelete (Cache c) key (cacheSt w)) as [[e|] cst];
    [reflexivity|].
  destruct (dUpsert (Database c) key val (dbSt w)) as [[e|] dst];
    [reflexivity|].
  destruct (gopherOf (Options c) (gopherSt w)) as [d gst]. simpl.
  split; [reflexivity|]. split.
  - generalize (fst (deletions (Cache c) key (inline_runs d) cst)).
    intros errs. induction errs as [|err errs IH]; [constructor|].
    simpl. constructor; [left; reflexivity|].
    destruct err as [e|]; simpl; [|exact IH].
    constructor; [right; exists e; reflexivity|exact IH].
  - intros ->. reflexivity.
Qed.

(** C2: Get asks the wrapped cache first.  Unless the answer is a cache
    miss (as [errors.Is] recognises it), Get returns the cache's value and
    error as they are and nothing else is called.  On a miss it selects from
    the database: a database error is returned with a nil value; otherwise
    the selected value is returned together with the error of writing it
    back into the cache, nil or not. *)
Theorem Get_read_through c key w :
  let r := Get c key w in
  match cGet (Cache c) key (cacheSt w) with
  | ((val, err), c1) =>
      if errors_Is err ErrCacheMiss then
        match dSelect (Database c) key (dbSt w) with
        | ((_, Some e), _) =>
            fst r = (AnyNil, Some e) /\
            trace (snd r) = trace w ++ [EvCacheGet key; EvSelect key]
        | ((dval, None), _) =>
            fst r = (dval, fst (cSet (Cache c) key dval c1)) /\
            trace (snd r) =
              trace w ++ [EvCacheGet key; EvSelect key; EvCacheSet key dval]
        end
      else
        fst r = (val, err) /\ trace (snd r) = trace w ++ [EvCacheGet key]
  end.
Proof.
  intros r; subst r. unfold Get, bind. rewrite cacheGet_run.
  destruct (cGet (Cache c) key (cacheSt w)) as [[val err] c1]; simpl.
  destruct (errors_Is err ErrCacheMiss); [|split; reflexivity].
  rewrite dbSelect_run; simpl.
  destruct (dSelect (Database c) key (dbSt w)) as [[dval [e|]] d1]; simpl.
  - split; [reflexivity|]. rewrite <- app_assoc. reflexivity.
  - rewrite cacheSet_run; simpl. unfold ret.
    split; [reflexivity|]. simpl. rewrite <- !app_assoc. reflexivity.
Qed.

(** The result of Set and of Delete as the synchronous steps decide it: the
    first cache deletion, the database call, the Gopher's own return. *)
Lemma Set_result c key val w :
  fst (Set_ c key val w) =
  match fst (cDelete (Cache c) key (cacheSt w)) with
  | Some e => Some e
  | None =>
      match fst (dUpsert (Database c) key val (dbSt w)) with
      | Some e => Some e
      | None => verdict (fst (gopherOf (Options c) (gopherSt w)))
      end
  end.
Proof.
  unfold Set_, bind. rewrite cacheDelete_run.
  destruct (cDelete (Cache c) key (cacheSt w)) as [[e|] c1]; simpl;
    [reflexivity|].
  rewrite dbUpsert_run; simpl.
  destruct (dUpsert (Database c) key val (dbSt w)) as [[e|] d1]; simpl;
    [reflexivity|].
  rewrite callGopher_run. reflexivity.
Qed.

Lemma Delete_result c key w :
  fst (Delete c key w) =
  match fst (cDelete (Cache c) key (cacheSt w)) with
  | Some e => Some e
  | None =>
      match fst (dDelete (Database c) key (dbSt w)) with
      | Some e => Some e
      | None => verdict (fst (gopherOf (Options c) (gopherSt w)))
      end
  end.
Proof.
  unfold Delete, bind. rewrite cacheDelete_run.
  destruct (cDelete (Cache c) key (cacheSt w)) as [[e|] c1]; simpl;
    [reflexivity|].
  rewrite dbDelete_run; simpl.
  destruct (dDelete (Database c) key (dbSt w)) as [[e|] d1]; simpl;
    [reflexivity|].
  rewrite callGopher_run. reflexivity.
Qed.

Lemma handled_repairEvents key err :
  handled (repairEvents key err) =
  match err with Some e => [e] | None => [] end.
Proof. destruct err; reflexivity. Qed.

Lemma runPending_run c t ts w :
  pending w = t :: ts ->
  runPending c w =
  (true,
   {| cacheSt := snd (cDelete (Cache c) (taskKey t) (cacheSt w));
      dbSt := dbSt w; gopherSt := gopherSt w; pending := ts;
      trace := trace w ++
               repairEvents (taskKey t)
                 (fst (cDelete (Cache c) (taskKey t) (cacheSt w))) |}).
Proof.
  intros Hp. unfold runPending. rewrite Hp, delayedDelete_run. reflexivity.
Qed.

(** C3: the closure that Set and Delete hand to the Gopher is the delayed
    deletion, and its failure goes to the error handler and nowhere else.
    A run of the closure returns nothing; when its cache deletion fails the
    handler is called with that error once, and not at all when the
    deletion succeeds.  The result of Set and of Delete is fixed by the two
    synchronous steps and the Gopher's own return, so a cache that answers
    the first deletion alike and every later deletion differently leads to
    the same result.  When the two synchronous steps succeeded, the Gopher is
    called with the closure for the key, the closure is pending once for
    every goroutine the Gopher started, and the handler was called exactly
    with the errors of the deletions that the runs made before the Gopher
    returned; when a step failed nothing is pending and the handler was not
    called.  A pending closure that gets to run calls the handler once when
    its deletion fails and not otherwise. *)
Theorem delayed_failure_goes_to_handler c key :
  (forall u,
     delayedDelete c (closure c key) u =
       (tt, snd (delayedDelete c (closure c key) u)) /\
     handled (trace (snd (delayedDelete c (closure c key) u))) =
       handled (trace u) ++
       match fst (cDelete (Cache c) key (cacheSt u)) with
       | Some e => [e]
       | None => []
       end) /\
  (forall val w,
     fst (Set_ c key val w) =
     match fst (cDelete (Cache c) key (cacheSt w)) with
     | Some e => Some e
     | None =>
         match fst (dUpsert (Database c) key val (dbSt w)) with
         | Some e => Some e
         | None => verdict (fst (gopherOf (Options c) (gopherSt w)))
         end
     end) /\
  (forall w,
     fst (Delete c key w) =
     match fst (cDelete (Cache c) key (cacheSt w)) with
     | Some e => Some e
     | None =>
         match fst (dDelete (Database c) key (dbSt w)) with
         | Some e => Some e
         | None => verdict (fst (gopherOf (Options c) (gopherSt w)))
         end
     end) /\
  (forall (other : gouache.Cache C) val w,
     fst (cDelete other key (cacheSt w)) =
     fst (cDelete (Cache c) key (cacheSt w)) ->
     let c' := {| Options := Options c; Cache := other;
                  Database := Database c |} in
     fst (Set_ c' key val w) = fst (Set_ c key val w) /\
     fst (Delete c' key w) = fst (Delete c key w)) /\
  (forall val w,
     let r := Set_ c key val w in
     match cDelete (Cache c) key (cacheSt w) with
     | (Some _, _) =>
         pending (snd r) = pending w /\
         handled (trace (snd r)) = handled (trace w)
     | (None, cst) =>
         match dUpsert (Database c) key val (dbSt w) with
         | (Some _, _) =>
             pending (snd r) = pending w /\
             handled (trace (snd r)) = handled (trace w)
         | (None, _) =>
             let d := fst (gopherOf (Options c) (gopherSt w)) in
             In (EvGopher (closure c key)) (trace (snd r)) /\
             pending (snd r) =
               pending w ++ replicate (spawned d) (closure c key) /\
             handled (trace (snd r)) =
               handled (trace w) ++
               omap id (fst (deletions (Cache c) key (inline_runs d) cst))
         end
     end) /\
  (forall w,
     let r := Delete c key w in
     match cDelete (Cache c) key (cacheSt w) with
     | (Some _, _) =>
         pending (snd r) = pending w /\
         handled (trace (snd r)) = handled (trace w)
     | (None, cst) =>
         match dDelete (Database c) key (dbSt w) with
         | (Some _, _) =>
             pending (snd r) = pending w /\
             handled (trace (snd r)) = handled (trace w)
         | (None, _) =>
             let d := fst (gopherOf (Options c) (gopherSt w)) in
             In (EvGopher (closure c key)) (trace (snd r)) /\
             pending (snd r) =
               pending w ++ replicate (spawned d) (closure c key) /\
             handled (trace (snd r)) =
               handled (trace w) ++
               omap id (fst (deletions (Cache c) key (inline_runs d) cst))
         end
     end) /\
  (forall u ts,
     pending u = closure c key :: ts ->
     fst (runPending c u) = true /\
     pending (snd (runPending c u)) = ts /\
     handled (trace (snd (runPending c u))) =
       handled (trace u) ++
       match fst (cDelete (Cache c) key (cacheSt u)) with
       | Some e => [e]
       | None => []
       end).
Proof.
  split; [|split; [|split; [|split; [|split; [|split]]]]].
  - intros u. rewrite delayedDelete_run; simpl.
    split; [reflexivity|].
    rewrite handled_app, handled_repairEvents. reflexivity.
  - intros val w. apply Set_result.
  - intros w. apply Delete_result.
  - intros other val w Hfirst c'. subst c'.
    rewrite !Set_result, !Delete_result. simpl. rewrite Hfirst.
    split; reflexivity.
  - intros val w r. subst r. rewrite Set_unfolded.
    destruct (cDelete (Cache c) key (cacheSt w)) as [[e|] cst]; simpl.
    { split; [reflexivity|]. rewrite handled_app, app_nil_r. reflexivity. }
    destruct (dUpsert (Database c) key val (dbSt w)) as [[e|] dst]; simpl.
    { split; [reflexivity|]. rewrite handled_app, app_nil_r. reflexivity. }
    destruct (gopherOf (Options c) (gopherSt w)) as [d gst]; simpl.
    split; [|split; [reflexivity|]].
    + apply in_or_app. right. right. right. left. reflexivity.
    + rewrite handled_app. simpl. rewrite handled_repairs. reflexivity.
  - intros w r. subst r. rewrite Delete_unfolded.
    destruct (cDelete (Cache c) key (cacheSt w)) as [[e|] cst]; simpl.
    { split; [reflexivity|]. rewrite handled_app, app_nil_r. reflexivity. }
    destruct (dDelete (Database c) key (dbSt w)) as [[e|] dst]; simpl.
    { split; [reflexivity|]. rewrite handled_app, app_nil_r. reflexivity. }
    destruct (gopherOf (Options c) (gopherSt w)) as [d gst]; simpl.
    split; [|split; [reflexivity|]].
    + apply in_or_app. right. right. right. left. reflexivity.
    + rewrite handled_app. simpl. rewrite handled_repairs. reflexivity.
  - intros u ts Hp. rewrite (runPending_run c (closure c key) ts u Hp).
    simpl. split; [reflexivity|]. split; [reflexivity|].
    rewrite handled_app, handled_repairEvents. reflexivity.
Qed.

(** C8: when the first cache deletion of Set or of Delete fails, the call
    returns that error; the only call made is that deletion: the database
    state, the scheduler and the started goroutines are as before. *)
Theorem first_deletion_failure_stops c key val w e cst :
  cDelete (Cache c) key (cacheSt w) = (Some e, cst) ->
  let after := {| cacheSt := cst; dbSt := dbSt w; gopherSt := gopherSt w;
                  pending := pending w;
                  trace := trace w ++ [EvCacheDelete key] |} in
  Set_ c key val w = (Some e, after) /\
  Delete c key w = (Some e, after) /\
  dbSt after = dbSt w /\ pending after = pending w.
Proof.
  intros H after. unfold Set_, Delete, bind.
  rewrite cacheDelete_run, H. simpl.
  repeat split; reflexivity.
Qed.

(** C9: when the deletion and the upsert of Set succeeded and the Gopher
    returns an error, Set returns that error, the database is in the state
    the upsert left, and after the upsert only runs of the closure happened
    (no write to the cache, no further database call).  When the Gopher did
    not run the closure, the cache is in the state the deletion left. *)
Theorem scheduler_rejection_keeps_write c key val w cst dst e :
  cDelete (Cache c) key (cacheSt w) = (None, cst) ->
  dUpsert (Database c) key val (dbSt w) = (None, dst) ->
  verdict (fst (gopherOf (Options c) (gopherSt w))) = Some e ->
  let r := Set_ c key val w in
  fst r = Some e /\
  dbSt (snd r) = dst /\
  (exists tail,
     trace (snd r) =
       trace w ++ [EvCacheDelete key; EvUpsert key val;
                   EvGopher (closure c key)] ++ tail /\
     Forall (isRepair key) tail) /\
  (inline_runs (fst (gopherOf (Options c) (gopherSt w))) = 0%nat ->
   cacheSt (snd r) = cst /\
   trace (snd r) =
     trace w ++ [EvCacheDelete key; EvUpsert key val;
                 EvGopher (closure c key)]).
Proof.
  intros Hdel Hup Hv r; subst r. unfold Set_, bind.
  rewrite cacheDelete_run, Hdel; simpl.
  rewrite dbUpsert_run; simpl. rewrite Hup; simpl.
  rewrite callGopher_run; simpl.
  destruct (gopherOf (Options c) (gopherSt w)) as [d g1]; simpl in *.
  split; [assumption|].
  match goal with |- context [times (inline_runs d) ?m ?w1] =>
    destruct (times_delayedDelete c (closure c key) (inline_runs d) w1)
      as (Hd & _ & _ & tail & Ht & Hall)
  end.
  simpl in *. split; [assumption|]. split.
  - exists tail. rewrite Ht, <- !app_assoc. split; [reflexivity|assumption].
  - intros Hn. rewrite Hn. simpl. rewrite <- !app_assoc. split; reflexivity.
Qed.

(** [New] leaves no nil Gopher behind. *)
Lemma New_Gopher_set (ch : gouache.Cache C) (db : gouache.Database D)
    (opts : list Option_) :
  exists g : Gopher G,
    Gopher_ (Options (New ch db opts)) = Some g /\
    gopherOf (Options (New ch db opts)) = g.
Proof.
  unfold gopherOf. simpl.
  destruct (Gopher_ (Apply _ opts)) as [g|]; eexists; split; reflexivity.
Qed.

End Facts.

(** *** Over the in-memory cache *)

Section OverSample.

Context {D G : Type}.
Variable db : gouache.Database D.
Variable opts : list (@Option_ G).

Local Abbreviation c := (New sample.Cache db opts).

Lemma times_delayedDelete_absent t n (w : World (gmap string any) D G) :
  cacheSt w !! taskKey t = None ->
  cacheSt (snd (times n (delayedDelete c t) w)) !! taskKey t = None.
Proof.
  revert w. induction n as [|n IH]; intros w Hw; simpl; [assumption|].
  unfold bind. rewrite delayedDelete_run. apply IH. simpl.
  apply lookup_delete_eq.
Qed.




End OverSample.

(** *** Runs on concrete collaborators *)


(** The second deletion fails while the first succeeded.  With a Gopher
    that runs the closure at once, Set still returns nil and the handler got
    the error once; with the default Gopher the closure is pending after
    Set, and the handler gets the error when the goroutine runs. *)
Example inline_failure_is_handled :
  let c := New doubles.flakyCache doubles.tableDatabase
             [WithGopher (Some doubles.inlineGopher)] in
  let w := doubles.world
             {| doubles.faults := [None; Some doubles.down];
                doubles.store := {[ "k"%string := AnyInt 1 ]} |}
             (∅ : gmap string any) in
  fst (Set_ c "k" (AnyInt 2) w) = None /\
  handled (trace (snd (Set_ c "k" (AnyInt 2) w))) = [doubles.down] /\
  fst (Delete c "k" w) = None /\
  handled (trace (snd (Delete c "k" w))) = [doubles.down].
Proof. vm_compute. repeat split; reflexivity. Qed.

Example spawned_failure_is_handled :
  let c := New (G := unit) doubles.flakyCache doubles.tableDatabase [] in
  let w := doubles.world
             {| doubles.faults := [None; Some doubles.down];
                doubles.store := {[ "k"%string := AnyInt 1 ]} |}
             (∅ : gmap string any) in
  let w1 := snd (Set_ c "k" (AnyInt 2) w) in
  fst (Set_ c "k" (AnyInt 2) w) = None /\
  pending w1 = [closure c "k"] /\
  handled (trace w1) = [] /\
  fst (runPending c w1) = true /\
  pending (snd (runPending c w1)) = [] /\
  handled (trace (snd (runPending c w1))) = [doubles.down].
Proof. vm_compute. repeat split; reflexivity. Qed.

Example Get_hit_and_miss :
  let c := New (G := unit) sample.Cache (doubles.strictDatabase ErrCacheMiss)
             [] in
  let w := doubles.world ({[ "a"%string := AnyInt 1 ]} : gmap string any)
                         ({[ "b"%string := AnyInt 2 ]} : gmap string any) in
  fst (Get c "a" w) = (AnyInt 1, None) /\
  fst (Get c "b" w) = (AnyInt 2, None) /\
  cacheSt (snd (Get c "b" w)) !! "b"%string = Some (AnyInt 2) /\
  fst (Get c "z" w) = (AnyNil, Some ErrCacheMiss).
Proof. vm_compute. repeat split; reflexivity. Qed.

Lemma first_deletion_failure_stops_witness :
  let c := New (G := unit) doubles.flakyCache doubles.tableDatabase [] in
  let w := doubles.world
             {| doubles.faults := [Some doubles.down];
                doubles.store := {[ "k"%string := AnyInt 1 ]} |}
             ({[ "k"%string := AnyInt 1 ]} : gmap string any) in
  fst (Set_ c "k" (AnyInt 2) w) = Some doubles.down /\
  fst (Delete c "k" w) = Some doubles.down /\
  dbSt (snd (Set_ c "k" (AnyInt 2) w)) = {[ "k"%string := AnyInt 1 ]} /\
  trace (snd (Set_ c "k" (AnyInt 2) w)) = [EvCacheDelete "k"].
Proof.
  intros c w.
  destruct (first_deletion_failure_stops c "k" (AnyInt 2) w doubles.down
              {| doubles.faults := []; doubles.store := doubles.store (cacheSt w) |}
              eq_refl) as (HS & HD & _ & _).
  rewrite HS, HD. repeat split; reflexivity.
Defined.

Lemma scheduler_rejection_keeps_write_witness :
  let c := New sample.Cache doubles.tableDatabase
             [WithGopher (Some (doubles.rejectGopher doubles.busy))] in
  let w := doubles.world ({[ "k"%string := AnyInt 1 ]} : gmap string any)
                         ({[ "k"%string := AnyInt 1 ]} : gmap string any) in
  fst (Set_ c "k" (AnyInt 2) w) = Some doubles.busy /\
  dbSt (snd (Set_ c "k" (AnyInt 2) w)) = {[ "k"%string := AnyInt 2 ]} /\
  cacheSt (snd (Set_ c "k" (AnyInt 2) w)) = ∅.
Proof.
  intros c w.
  destruct (scheduler_rejection_keeps_write c "k" (AnyInt 2) w
              (delete "k"%string (cacheSt w))
              (<["k"%string := AnyInt 2]> (dbSt w)) doubles.busy
              eq_refl eq_refl eq_refl) as (Hr & Hd & _ & Hc).
  destruct (Hc eq_refl) as (Hc1 & _).
  rewrite Hr, Hd, Hc1. repeat split; vm_compute; reflexivity.
Defined.

End ddd_facts.

(** * Properties of the sharding router *)

Module sharded_facts.
Import sharded.

Lemma byteZ_range b : 0 <= byteZ b < 256.
Proof.
  unfold byteZ. pose proof (Byte.to_N_bounded b). lia.
Qed.

Lemma lor_range k a b :
  0 < k -> 0 <= a < 2 ^ k -> 0 <= b < 2 ^ k -> 0 <= Z.lor a b < 2 ^ k.
Proof.
  intros Hk Ha Hb.
  assert (Hnn : 0 <= Z.lor a b) by (apply Z.lor_nonneg; lia).
  split; [assumption|].
  destruct (Z.eq_dec (Z.lor a b) 0) as [Hz|Hne].
  { rewrite Hz. apply Z.pow_pos_nonneg; lia. }
  apply Z.log2_lt_pow2; [lia|].
  rewrite Z.log2_lor by lia.
  apply Z.max_lub_lt.
  - destruct (Z.eq_dec a 0) as [->|Ha0]; [simpl; lia|].
    apply Z.log2_lt_pow2; lia.
  - destruct (Z.eq_dec b 0) as [->|Hb0]; [simpl; lia|].
    apply Z.log2_lt_pow2; lia.
Qed.

Lemma BigEndian_Uint32_range b : 0 <= BigEndian_Uint32 b < 2 ^ 32.
Proof.
  unfold BigEndian_Uint32.
  destruct b as [|b0 [|b1 [|b2 [|b3 rest]]]]; try lia.
  pose proof (byteZ_range b0). pose proof (byteZ_range b1).
  pose proof (byteZ_range b2). pose proof (byteZ_range b3).
  rewrite !Z.shiftl_mul_pow2 by lia.
  repeat apply lor_range; lia.
Qed.

Lemma int_small `{Arch} z : 0 <= z < 2 ^ (intSize - 1) -> int z = z.
Proof.
  intros Hz. unfold int.
  destruct intSize_32_or_64 as [E|E]; rewrite E in *;
    rewrite Z.mod_small; lia.
Qed.

Lemma uint32_small z : 0 <= z < 2 ^ 32 -> uint32 z = z.
Proof. intros Hz. unfold uint32. apply Z.mod_small. lia. Qed.

Lemma uint64_small z : 0 <= z < 2 ^ 64 -> uint64 z = z.
Proof. intros Hz. unfold uint64. apply Z.mod_small. lia. Qed.

Lemma index_in_range {C : Type} (bs : list (Bucket C)) i :
  0 <= i < Z.of_nat (length bs) ->
  exists b, bs !! Z.to_nat i = Some b /\ index bs i = Done (Z.to_nat i, b).
Proof.
  intros Hi. unfold index.
  destruct (Z.ltb_spec i 0) as [Hneg|_]; [lia|].
  destruct (lookup_lt_is_Some_2 bs (Z.to_nat i)) as [b Hb]; [lia|].
  exists b. rewrite Hb. split; reflexivity.
Qed.

Section Router.

Context {C : Type} {arch : Arch}.

Lemma bucket_error_propagates (c : cache C) key err :
  bucket c key = Done (inr err) -> propagates c key err.
Proof.
  intros H. unfold propagates, Get, Set_, Delete. rewrite H.
  repeat split; reflexivity.
Qed.

Lemma bucket_selects (c : cache C) key i :
  bucketIndex (hashFactoryOf (Options c))
              (Z.of_nat (length (Buckets c))) key = Done (inl i) ->
  0 <= i < Z.of_nat (length (Buckets c)) ->
  selects c key i.
Proof.
  intros Hidx Hi. unfold selects, bucket. rewrite Hidx.
  destruct (index_in_range (Buckets c) i Hi) as (b & Hb & Hix).
  exists b. rewrite Hix. split; [assumption|reflexivity].
Qed.

(** Where the rule of the bucket index does hold: on a 64-bit target, for
    a router with [n >= 1] buckets.  An error of the hash factory or of
    writing the key is returned, by [bucket] and by Get, Set and Delete, and
    the buckets stay as they were.  Otherwise, for a hash of size 4 the
    index is the 32-bit sum modulo [n] as long as [n < 2^32]; for a hash of
    size 8 it is the 64-bit sum modulo [n]; for any other size it is 0 when
    the digest has fewer than four bytes, and else the first four digest
    bytes read big-endian modulo [n].  A hash of size 4 or 8 without the
    matching sum makes [bucket] panic. *)
Lemma bucket_index_rule (c : cache C) (key : string) :
  intSize = 64 ->
  1 <= Z.of_nat (length (Buckets c)) < 2 ^ 63 ->
  let n := Z.of_nat (length (Buckets c)) in
  match hashFactoryOf (Options c) key with
  | inr err => propagates c key err
  | inl h =>
      match Write h (String.list_byte_of_string key) (hstate h) with
      | (Some err, _) => propagates c key err
      | (None, st) =>
          if Size h st =? 4 then
            match Sum32 h with
            | Some sum32 =>
                n < 2 ^ 32 -> selects c key (uint32 (sum32 st) mod n)
            | None =>
                bucket c key = Panic "interface conversion: not hash.Hash32"
            end
          else if Size h st =? 8 then
            match Sum64 h with
            | Some sum64 => selects c key (uint64 (sum64 st) mod n)
            | None =>
                bucket c key = Panic "interface conversion: not hash.Hash64"
            end
          else if (length (Sum h [] st) <? 4)%nat then selects c key 0
          else selects c key (BigEndian_Uint32 (firstn 4 (Sum h [] st)) mod n)
      end
  end.
Proof.
  intros Hsize Hn n.
  assert (Hn64 : uint64 n = n) by (apply uint64_small; subst n; lia).
  destruct (hashFactoryOf (Options c) key) as [h|err] eqn:Hf.
  2:{ apply bucket_error_propagates. unfold bucket, bucketIndex.
      rewrite Hf. reflexivity. }
  destruct (Write h (String.list_byte_of_string key) (hstate h))
    as [[err|] st] eqn:Hw.
  { apply bucket_error_propagates. unfold bucket, bucketIndex.
    rewrite Hf, Hw. reflexivity. }
  assert (Hnz : (n =? 0) = false) by (apply Z.eqb_neq; subst n; lia).
  destruct (Size h st =? 4) eqn:H4.
  { destruct (Sum32 h) as [sum32|] eqn:Hs.
    2:{ unfold bucket, bucketIndex. rewrite Hf, Hw, H4, Hs. reflexivity. }
    intros Hsmall.
    assert (Hn32 : uint32 n = n) by (apply uint32_small; subst n; lia).
    apply bucket_selects.
    - unfold bucketIndex. fold n. rewrite Hf, Hw, H4, Hs, Hn32, Hnz.
      reflexivity.
    - fold n. apply Z.mod_pos_bound. lia. }
  destruct (Size h st =? 8) eqn:H8.
  { destruct (Sum64 h) as [sum64|] eqn:Hs.
    2:{ unfold bucket, bucketIndex. rewrite Hf, Hw, H4, H8, Hs.
        reflexivity. }
    apply bucket_selects.
    - unfold bucketIndex. fold n. rewrite Hf, Hw, H4, H8, Hs, Hn64, Hnz.
      reflexivity.
    - fold n. apply Z.mod_pos_bound. lia. }
  destruct (length (Sum h [] st) <? 4)%nat eqn:Hlen.
  { apply bucket_selects.
    - unfold bucketIndex. fold n. rewrite Hf, Hw, H4, H8, Hlen. reflexivity.
    - fold n. lia. }
  pose proof (BigEndian_Uint32_range (firstn 4 (Sum h [] st))) as Hbe.
  apply bucket_selects.
  - unfold bucketIndex. fold n. rewrite Hf, Hw, H4, H8, Hlen, Hnz. simpl.
    rewrite int_small by (rewrite Hsize; lia).
    rewrite Z.rem_mod_nonneg by lia. reflexivity.
  - fold n. apply Z.mod_pos_bound. lia.
Qed.

(** C6: New panics on an empty bucket list and returns no router; on a
    list with at least one bucket it returns the router over that list.
    Every router New returns has at least one bucket. *)
Theorem New_requires_a_bucket (opts : list Option_) :
  New (C := C) [] opts = Panic "gouache: buckets is empty" /\
  (forall b bs,
     New (C := C) (b :: bs) opts =
       Done {| Options := newOptions opts; Buckets := b :: bs |}) /\
  (forall buckets c,
     New (C := C) buckets opts = Done c ->
     Buckets c = buckets /\ (1 <= length (Buckets c))%nat).
Proof.
  split; [reflexivity|]. split; [reflexivity|].
  intros buckets c. unfold New.
  destruct buckets as [|b bs]; simpl; [discriminate|].
  intros H. injection H as <-. simpl. split; [reflexivity|lia].
Qed.

(** C10, as the code has it: when the factory returns a hash, writing the
    key succeeds, and the hash reports size 4 without a 32-bit sum (or size
    8 without a 64-bit sum), Get, Set and Delete all panic in the type
    assertion of [bucket]; no error is returned. *)
Theorem unchecked_assertion_panics (c : cache C) (key : string) (val : any)
    (h : Hash) (st : HState h) :
  hashFactoryOf (Options c) key = inl h ->
  Write h (String.list_byte_of_string key) (hstate h) = (None, st) ->
  (Size h st = 4 /\ Sum32 h = None) \/ (Size h st = 8 /\ Sum64 h = None) ->
  exists msg,
    bucket c key = Panic msg /\
    Get c key = Panic msg /\
    Set_ c key val = Panic msg /\
    Delete c key = Panic msg.
Proof.
  intros Hf Hw Hcase.
  assert (Hb : exists msg, bucket c key = Panic msg).
  { unfold bucket, bucketIndex. rewrite Hf, Hw.
    destruct Hcase as [[Hs Hn]|[Hs Hn]]; rewrite Hs, Hn; simpl; eauto. }
  destruct Hb as [msg Hb]. exists msg.
  unfold Get, Set_, Delete. rewrite Hb. repeat split; reflexivity.
Qed.

(** [New] leaves no nil hash factory behind. *)
Lemma New_HashFactory_set (buckets : list (Bucket C)) (opts : list Option_)
    (c : cache C) :
  New buckets opts = Done c ->
  HashFactory_ (Options c) = Some (hashFactoryOf (Options c)).
Proof.
  unfold New. destruct (length buckets =? 0)%nat; [discriminate|].
  intros H. injection H as <-. unfold hashFactoryOf. simpl.
  unfold newOptions, Correct.
  destruct (HashFactory_ (Apply _ opts)) as [f|] eqn:E; simpl.
  - rewrite E. reflexivity.
  - reflexivity.
Qed.

End Router.

(** *** Runs on concrete routers *)

Lemma bucket_index_rule_witness : selects doubles.twoBuckets "key1" 1.
Proof.
  assert (H : 1 <= Z.of_nat (length (Buckets doubles.twoBuckets)) < 2 ^ 63)
    by (simpl; lia).
  assert (H32 : Z.of_nat (length (Buckets doubles.twoBuckets)) < 2 ^ 32)
    by (simpl; lia).
  exact (bucket_index_rule doubles.twoBuckets "key1" eq_refl H H32).
Defined.

Example bucket_other_width :
  selects (doubles.threeBuckets doubles.wide16) "key1" 2 /\
  selects (doubles.threeBuckets doubles.short2) "key1" 0 /\
  selects (doubles.threeBuckets fnv_New64a) "key1" 1.
Proof.
  unfold selects. repeat split; eexists; split; reflexivity.
Qed.

Example size8_without_Hash64 :
  Get (doubles.threeBuckets doubles.plain8) "key1" =
    Panic "interface conversion: not hash.Hash64".
Proof. reflexivity. Qed.

Lemma manyBuckets_count : Z.of_nat doubles.manyBuckets = 2 ^ 32 + 1.
Proof. unfold doubles.manyBuckets. apply Z2Nat.id. lia. Qed.

(** With [2^32 + 1] buckets the bucket count does not fit a uint32; for the
    default hash, whose 32-bit sum of "key1" is 927623783, the router takes
    bucket 0, not bucket 927623783. *)
Lemma bucket_count_beyond_uint32 :
  New (replicate doubles.manyBuckets (doubles.memBucket ∅)) [] =
    Done doubles.crowded /\
  Z.of_nat (length (Buckets doubles.crowded)) = 2 ^ 32 + 1 /\
  uint32 (fold_left fnv32a_step (String.list_byte_of_string "key1")
                    2166136261)
    mod (2 ^ 32 + 1) = 927623783 /\
  bucket doubles.crowded "key1" = Done (inl (0%nat, doubles.memBucket ∅)) /\
  ~ selects doubles.crowded "key1" 927623783.
Proof.
  assert (Hpos : (0 < doubles.manyBuckets)%nat).
  { pose proof manyBuckets_count. lia. }
  assert (Hlen : Z.of_nat (length (Buckets doubles.crowded)) = 2 ^ 32 + 1).
  { unfold doubles.crowded. cbn [Buckets].
    rewrite length_replicate. apply manyBuckets_count. }
  assert (Hb : bucket doubles.crowded "key1" =
               Done (inl (0%nat, doubles.memBucket ∅))).
  { unfold bucket. rewrite Hlen.
    unfold doubles.crowded. cbn [Buckets Options].
    assert (Hi : bucketIndex (hashFactoryOf (newOptions []))
                   (2 ^ 32 + 1) "key1" = Done (inl 0))
      by (vm_compute; reflexivity).
    rewrite Hi. unfold index.
    change (0 <? 0) with false. change (Z.to_nat 0) with 0%nat. cbv iota.
    rewrite lookup_replicate_2 by exact Hpos. reflexivity. }
  split; [|split; [exact Hlen|split; [vm_compute; reflexivity|split]]].
  - unfold New. rewrite length_replicate.
    destruct (Nat.eqb_spec doubles.manyBuckets 0) as [H0|_]; [lia|].
    reflexivity.
  - exact Hb.
  - unfold selects. intros (b & _ & Hsel). rewrite Hb in Hsel.
    assert (Hi : 0%nat = Z.to_nat 927623783) by congruence. lia.
Qed.

Lemma fullBuckets_count : Z.of_nat doubles.fullBuckets = 2 ^ 32.
Proof. unfold doubles.fullBuckets. apply Z2Nat.id. lia. Qed.

Lemma bucket_count_of_uint32_range :
  New (replicate doubles.fullBuckets (doubles.memBucket ∅)) [] =
    Done doubles.packed /\
  Z.of_nat (length (Buckets doubles.packed)) = 2 ^ 32 /\
  bucket doubles.packed "key1" = Panic "integer divide by zero".
Proof.
  assert (Hpos : (0 < doubles.fullBuckets)%nat).
  { pose proof fullBuckets_count. lia. }
  assert (Hlen : Z.of_nat (length (Buckets doubles.packed)) = 2 ^ 32).
  { unfold doubles.packed. cbn [Buckets].
    rewrite length_replicate. apply fullBuckets_count. }
  split; [|split; [exact Hlen|]].
  - unfold New. rewrite length_replicate.
    destruct (Nat.eqb_spec doubles.fullBuckets 0) as [H0|_]; [lia|].
    reflexivity.
  - unfold bucket. rewrite Hlen.
    unfold doubles.packed. cbn [Buckets Options].
    assert (Hi : bucketIndex (hashFactoryOf (newOptions []))
                   (2 ^ 32) "key1" = Panic "integer divide by zero")
      by (vm_compute; reflexivity).
    rewrite Hi. reflexivity.
Qed.

(** C4: the bucket index is not always the sum modulo the number of
    buckets; the code at three inputs.  On a 64-bit target the branch for
    hashes of size 4 converts the number of buckets to uint32 before it
    divides, which the branches for size 8 and for other sizes do not do:
    with [2^32] buckets and the default hash the divisor is 0 and [bucket],
    Get, Set and Delete panic; with [2^32 + 1] buckets the divisor is 1 and
    key "key1", whose sum is 927623783, goes to bucket 0.  On a 32-bit
    target the branch for other sizes converts the first four digest bytes
    to [int]: for a digest that starts ff 00 00 05 and three buckets the
    index is negative and [bucket] panics, where the big-endian value
    modulo 3 is 2. *)
Theorem bucket_index_depends_on_width :
  (Z.of_nat (length (Buckets doubles.packed)) = 2 ^ 32 /\
   bucket doubles.packed "key1" = Panic "integer divide by zero" /\
   Get doubles.packed "key1" = Panic "integer divide by zero" /\
   Set_ doubles.packed "key1" (AnyInt 1) = Panic "integer divide by zero" /\
   Delete doubles.packed "key1" = Panic "integer divide by zero" /\
   uint32 (fold_left fnv32a_step (String.list_byte_of_string "key1")
                     2166136261) mod 2 ^ 32 = 927623783) /\
  (Z.of_nat (length (Buckets doubles.crowded)) = 2 ^ 32 + 1 /\
   bucket doubles.crowded "key1" = Done (inl (0%nat, doubles.memBucket ∅)) /\
   uint32 (fold_left fnv32a_step (String.list_byte_of_string "key1")
                     2166136261) mod (2 ^ 32 + 1) = 927623783) /\
  (bucket (arch := doubles.i386) (doubles.threeBuckets doubles.wide16) "key1"
     = Panic "index out of range" /\
   bucket (arch := doubles.amd64) (doubles.threeBuckets doubles.wide16) "key1"
     = Done (inl (2%nat, doubles.memBucket ∅)) /\
   BigEndian_Uint32 (firstn 4 (Sum doubles.wide16 [] tt)) mod 3 = 2).
Proof.
  destruct bucket_count_of_uint32_range as (_ & Hlen & Hb).
  destruct bucket_count_beyond_uint32 as (_ & Hlen' & Hsum & Hb' & _).
  split; [|split].
  - split; [exact Hlen|]. split; [exact Hb|].
    unfold Get, Set_, Delete. rewrite Hb.
    repeat split; reflexivity.
  - split; [exact Hlen'|]. split; [exact Hb'|exact Hsum].
  - repeat split; vm_compute; reflexivity.
Qed.

Lemma unchecked_assertion_panics_witness :
  exists msg,
    bucket (doubles.threeBuckets doubles.plain4) "key1" = Panic msg /\
    Get (doubles.threeBuckets doubles.plain4) "key1" = Panic msg /\
    Set_ (doubles.threeBuckets doubles.plain4) "key1" (AnyInt 1) = Panic msg /\
    Delete (doubles.threeBuckets doubles.plain4) "key1" = Panic msg.
Proof.
  apply (unchecked_assertion_panics
           (doubles.threeBuckets doubles.plain4) "key1" (AnyInt 1)
           doubles.plain4 tt eq_refl eq_refl).
  left. split; reflexivity.
Defined.

(** C10 as stated fails: a hash that reports size 4, is no [hash.Hash32]
    and fails to write the key makes Get, Set and Delete return the write
    error; nothing panics. *)
Lemma failed_write_returns_before_assertion :
  let h := doubles.broken4 doubles.unwritable in
  let c := doubles.threeBuckets h in
  Size h tt = 4 /\ Sum32 h = None /\
  Get c "key1" = Done ((AnyNil, Some doubles.unwritable), c) /\
  Set_ c "key1" (AnyInt 1) = Done (Some doubles.unwritable, c) /\
  Delete c "key1" = Done (Some doubles.unwritable, c).
Proof. repeat split; reflexivity. Qed.

End sharded_facts.

(** * Further properties of the delayed double delete decorator *)

Module ddd_more.
Import ddd ddd_facts.

Section Configuration.

Context {G : Type}.
Implicit Types (o : options G) (opts : list (@Option_ G)).

Lemma default_or_positive (d dflt : Z) :
  0 < dflt ->
  (if d <=? 0 then dflt else d) = (if 0 <? d then d else dflt) /\
  0 < (if d <=? 0 then dflt else d).
Proof.
  intros Hd. destruct (Z.leb_spec d 0), (Z.ltb_spec 0 d); split; lia.
Qed.

(** X1: [Correct] leaves both durations positive and a Gopher in place: a
    positive configured duration is kept, any other is replaced by 500ms
    (delay) or 500s (timeout); a configured Gopher is kept, a nil one is
    replaced by the goroutine-starting default.  Correcting twice changes
    nothing more. *)
Theorem Correct_fills_defaults o :
  0 < DelayDuration (Correct o) /\
  0 < DeleteTimeout (Correct o) /\
  DelayDuration (Correct o) =
    (if 0 <? DelayDuration o then DelayDuration o else 500000000) /\
  DeleteTimeout (Correct o) =
    (if 0 <? DeleteTimeout o then DeleteTimeout o else 500000000000) /\
  Gopher_ (Correct o) = Some (gopherOf o) /\
  Correct (Correct o) = Correct o.
Proof.
  destruct o as [dd dt g]. unfold Correct, gopherOf; simpl.
  change (500 * Millisecond) with 500000000.
  change (500 * Second) with 500000000000.
  destruct (default_or_positive dd 500000000 ltac:(lia)) as (Hd1 & Hd2).
  destruct (default_or_positive dt 500000000000 ltac:(lia)) as (Ht1 & Ht2).
  split; [exact Hd2|]. split; [exact Ht2|].
  split; [exact Hd1|]. split; [exact Ht1|].
  split; [destruct g; reflexivity|].
  f_equal.
  - destruct (Z.leb_spec dd 0) as [H|H].
    + reflexivity.
    + destruct (Z.leb_spec dd 0); [lia|reflexivity].
  - destruct (Z.leb_spec dt 0) as [H|H].
    + reflexivity.
    + destruct (Z.leb_spec dt 0); [lia|reflexivity].
  - destruct g; reflexivity.
Qed.



End Configuration.

Section Behaviour.

Context {C D G : Type}.
Implicit Types (c : cache C D G) (w : World C D G).


(** X4: when Delete's two deletions succeeded and the Gopher returns an
    error, Delete returns that error with the key deleted from the database
    all the same: the database is in the state its deletion left, and when
    the Gopher did not run the closure the cache is in the state the first
    deletion left. *)
Theorem Delete_rejection_keeps_deletion c key w cst dst e :
  cDelete (Cache c) key (cacheSt w) = (None, cst) ->
  dDelete (Database c) key (dbSt w) = (None, dst) ->
  verdict (fst (gopherOf (Options c) (gopherSt w))) = Some e ->
  let r := Delete c key w in
  fst r = Some e /\
  dbSt (snd r) = dst /\
  (inline_runs (fst (gopherOf (Options c) (gopherSt w))) = 0%nat ->
   cacheSt (snd r) = cst /\
   trace (snd r) =
     trace w ++ [EvCacheDelete key; EvDbDelete key;
                 EvGopher (closure c key)]).
Proof.
  intros Hdel Hdb Hv r; subst r. unfold Delete, bind.
  rewrite cacheDelete_run, Hdel; simpl.
  rewrite dbDelete_run; simpl. rewrite Hdb; simpl.
  rewrite callGopher_run; simpl.
  destruct (gopherOf (Options c) (gopherSt w)) as [d g1]; simpl in *.
  split; [assumption|].
  match goal with |- context [times (inline_runs d) ?m ?w1] =>
    destruct (times_delayedDelete c (closure c key) (inline_runs d) w1)
      as (Hd & _ & _ & _)
  end.
  simpl in *. split; [assumption|].
  intros Hn. rewrite Hn. simpl. rewrite <- !app_assoc. split; reflexivity.
Qed.



(** X6: with the default Gopher a Set whose deletion and upsert succeed
    returns nil and starts exactly one goroutine for the key: the cache and
    the database are as the two calls left them, one closure is added to
    the pending ones, the error handler is not called.  The same holds for
    a Delete whose two deletions succeed.  Neither needs anything of the
    database call the other makes. *)
Theorem default_Gopher_starts_one_goroutine c key w cst :
  Gopher_ (Options c) = Some goGopher ->
  cDelete (Cache c) key (cacheSt w) = (None, cst) ->
  (forall val dst,
     dUpsert (Database c) key val (dbSt w) = (None, dst) ->
     Set_ c key val w =
       (None, {| cacheSt := cst; dbSt := dst; gopherSt := gopherSt w;
                 pending := pending w ++ [closure c key];
                 trace := trace w ++ [EvCacheDelete key; EvUpsert key val;
                                      EvGopher (closure c key)] |})) /\
  (forall dst,
     dDelete (Database c) key (dbSt w) = (None, dst) ->
     Delete c key w =
       (None, {| cacheSt := cst; dbSt := dst; gopherSt := gopherSt w;
                 pending := pending w ++ [closure c key];
                 trace := trace w ++ [EvCacheDelete key; EvDbDelete key;
                                      EvGopher (closure c key)] |})).
Proof.
  intros Hg Hdel.
  assert (Hgo : gopherOf (Options c) = goGopher)
    by (unfold gopherOf; rewrite Hg; reflexivity).
  split.
  - intros val dst Hup. unfold Set_, bind.
    rewrite cacheDelete_run, Hdel; simpl.
    rewrite dbUpsert_run; simpl. rewrite Hup; simpl.
    rewrite callGopher_run, Hgo; simpl.
    rewrite <- !app_assoc. reflexivity.
  - intros dst Hdb. unfold Delete, bind.
    rewrite cacheDelete_run, Hdel; simpl.
    rewrite dbDelete_run; simpl. rewrite Hdb; simpl.
    rewrite callGopher_run, Hgo; simpl.
    rewrite <- !app_assoc. reflexivity.
Qed.

End Behaviour.

(** *** Over the in-memory cache *)

Section OverSample.

Context {D G : Type}.
Variable db : gouache.Database D.
Variable opts : list (@Option_ G).

Local Abbreviation c := (New sample.Cache db opts).

Implicit Types (w u : World (gmap string any) D G).

Lemma Get_sample_absent key w :
  cacheSt w !! key = None ->
  Get c key w =
  match dSelect db key (dbSt w) with
  | ((_, Some e), dst) =>
      ((AnyNil, Some e),
       {| cacheSt := cacheSt w; dbSt := dst; gopherSt := gopherSt w;
          pending := pending w;
          trace := trace w ++ [EvCacheGet key; EvSelect key] |})
  | ((dval, None), dst) =>
      ((dval, None),
       {| cacheSt := <[key := dval]> (cacheSt w); dbSt := dst;
          gopherSt := gopherSt w; pending := pending w;
          trace := trace w ++
                   [EvCacheGet key; EvSelect key; EvCacheSet key dval] |})
  end.
Proof.
  intros Habs. unfold Get, bind. rewrite cacheGet_run. simpl.
  unfold sample.Get. rewrite Habs. simpl. rewrite dbSelect_run. simpl.
  destruct (dSelect db key (dbSt w)) as [[dval [e|]] dst]; simpl.
  - rewrite <- app_assoc. reflexivity.
  - rewrite <- !app_assoc. reflexivity.
Qed.

Lemma Get_sample_present key val w :
  cacheSt w !! key = Some val ->
  Get c key w =
  ((val, None),
   {| cacheSt := cacheSt w; dbSt := dbSt w; gopherSt := gopherSt w;
      pending := pending w; trace := trace w ++ [EvCacheGet key] |}).
Proof.
  intros Hin. unfold Get, bind. rewrite cacheGet_run. simpl.
  unfold sample.Get. rewrite Hin. reflexivity.
Qed.

(** X7: a miss fills the cache.  When the cache lacks the key and Select
    succeeds, Get returns the selected value with a nil error and stores it
    in the cache; the Get that follows returns the same value from the
    cache alone, without a call to the database. *)
Theorem miss_fills_cache key w dval dst :
  cacheSt w !! key = None ->
  dSelect db key (dbSt w) = ((dval, None), dst) ->
  let w1 := snd (Get c key w) in
  fst (Get c key w) = (dval, None) /\
  cacheSt w1 !! key = Some dval /\
  fst (Get c key w1) = (dval, None) /\
  dbSt (snd (Get c key w1)) = dbSt w1 /\
  trace (snd (Get c key w1)) = trace w1 ++ [EvCacheGet key].
Proof.
  intros Habs Hsel w1. subst w1.
  rewrite (Get_sample_absent key w Habs), Hsel. simpl.
  assert (Hin : (<[key := dval]> (cacheSt w) : gmap string any) !! key
                = Some dval) by apply lookup_insert_eq.
  split; [reflexivity|]. split; [exact Hin|].
  match goal with |- context [Get c key ?w1] =>
    rewrite (Get_sample_present key dval w1 Hin)
  end.
  repeat split; reflexivity.
Qed.

Lemma Set_sample_absent key val w :
  cacheSt (snd (Set_ c key val w)) !! key = None.
Proof.
  unfold Set_, bind. rewrite cacheDelete_run. simpl.
  rewrite dbUpsert_run. simpl.
  destruct (dUpsert db key val (dbSt w)) as [[e|] dst]; simpl.
  - apply lookup_delete_eq.
  - rewrite callGopher_run. simpl.
    apply (times_delayedDelete_absent db opts (closure c key)). simpl.
    apply lookup_delete_eq.
Qed.

Lemma Set_sample_database key val w :
  fst (Set_ c key val w) = None ->
  dbSt (snd (Set_ c key val w)) = snd (dUpsert db key val (dbSt w)).
Proof.
  unfold Set_, bind. rewrite cacheDelete_run. simpl.
  rewrite dbUpsert_run. simpl.
  destruct (dUpsert db key val (dbSt w)) as [[e|] dst]; simpl;
    [discriminate|].
  intros _. rewrite callGopher_run. simpl.
  match goal with |- context [times ?n ?m ?w1] =>
    destruct (times_delayedDelete c (closure c key) n w1) as (Hd & _)
  end.
  exact Hd.
Qed.

(** X8: Set leaves the key out of the cache, so the Get that follows
    answers from the database: a failed Select gives its error with a nil
    value, a successful one its value with a nil error.  When Set returned
    nil the database asked is in the state the upsert left: Get after Set
    returns what the database selects right after the upsert. *)
Theorem Set_then_Get_answers_from_database key val w :
  let w1 := snd (Set_ c key val w) in
  cacheSt w1 !! key = None /\
  fst (Get c key w1) =
    match fst (dSelect db key (dbSt w1)) with
    | (_, Some e) => (AnyNil, Some e)
    | (dval, None) => (dval, None)
    end /\
  (fst (Set_ c key val w) = None ->
   dbSt w1 = snd (dUpsert db key val (dbSt w))).
Proof.
  intros w1. pose proof (Set_sample_absent key val w) as Habs. fold w1 in Habs.
  split; [exact Habs|]. split.
  - rewrite (Get_sample_absent key w1 Habs).
    destruct (dSelect db key (dbSt w1)) as [[dval [e|]] dst]; reflexivity.
  - apply Set_sample_database.
Qed.

(** X9: the delayed deletion removes what a late reader put back.  After a
    Set with the default Gopher, let a reader store a stale value for the
    key in the cache: a Get then returns the stale value.  Once the pending
    goroutine has run, the cache no longer holds the key, the error handler
    was not called, the database is as the upsert left it, and Get answers
    from the database again. *)
Theorem stale_entry_is_purged key val stale w dst :
  gopherOf (Options c) = goGopher ->
  pending w = [] ->
  dUpsert db key val (dbSt w) = (None, dst) ->
  let w1 := snd (Set_ c key val w) in
  let w2 := snd (cacheSet c key stale w1) in
  let w3 := snd (runPending c w2) in
  fst (Get c key w2) = (stale, None) /\
  fst (runPending c w2) = true /\
  cacheSt w3 !! key = None /\
  pending w3 = [] /\
  dbSt w3 = dst /\
  handled (trace w3) = handled (trace w) /\
  fst (Get c key w3) =
    match fst (dSelect db key dst) with
    | (_, Some e) => (AnyNil, Some e)
    | (dval, None) => (dval, None)
    end.
Proof.
  intros Hgo Hp Hup w1 w2 w3.
  assert (Hw1 : w1 =
    {| cacheSt := delete key (cacheSt w); dbSt := dst;
       gopherSt := gopherSt w; pending := [closure c key];
       trace := trace w ++ [EvCacheDelete key; EvUpsert key val;
                            EvGopher (closure c key)] |}).
  { subst w1. unfold Set_, bind. rewrite cacheDelete_run. simpl.
    rewrite dbUpsert_run. simpl. rewrite Hup. simpl.
    rewrite callGopher_run, Hgo. simpl. rewrite Hp.
    rewrite <- !app_assoc. reflexivity. }
  assert (Hw2 : w2 =
    {| cacheSt := <[key := stale]> (delete key (cacheSt w)); dbSt := dst;
       gopherSt := gopherSt w; pending := [closure c key];
       trace := (trace w ++ [EvCacheDelete key; EvUpsert key val;
                             EvGopher (closure c key)]) ++
                [EvCacheSet key stale] |}).
  { subst w2. rewrite cacheSet_run, Hw1. reflexivity. }
  assert (Hrun : runPending c w2 =
    (true,
     {| cacheSt := delete key (<[key := stale]> (delete key (cacheSt w)));
        dbSt := dst; gopherSt := gopherSt w; pending := [];
        trace := ((trace w ++ [EvCacheDelete key; EvUpsert key val;
                               EvGopher (closure c key)]) ++
                  [EvCacheSet key stale]) ++ [EvCacheDelete key] |})).
  { rewrite Hw2. unfold runPending.
    cbn [pending cacheSt dbSt gopherSt trace].
    rewrite delayedDelete_run. reflexivity. }
  assert (Hin : cacheSt w2 !! key = Some stale).
  { rewrite Hw2. simpl. apply lookup_insert_eq. }
  assert (Hout : cacheSt w3 !! key = None).
  { subst w3. rewrite Hrun. simpl. apply lookup_delete_eq. }
  split; [rewrite (Get_sample_present key stale w2 Hin); reflexivity|].
  split; [rewrite Hrun; reflexivity|].
  split; [exact Hout|].
  assert (Hdb : dbSt w3 = dst) by (subst w3; rewrite Hrun; reflexivity).
  split; [subst w3; rewrite Hrun; reflexivity|].
  split; [exact Hdb|].
  split.
  - subst w3. rewrite Hrun. simpl. rewrite !handled_app. simpl.
    rewrite !app_nil_r. reflexivity.
  - rewrite (Get_sample_absent key w3 Hout), Hdb.
    destruct (dSelect db key dst) as [[dval [e|]] dst2]; reflexivity.
Qed.

End OverSample.

(** *** Runs on concrete collaborators *)

Lemma Delete_rejection_keeps_deletion_witness :
  let c := New sample.Cache doubles.tableDatabase
             [WithGopher (Some (doubles.rejectGopher doubles.busy))] in
  let w := doubles.world ({[ "k"%string := AnyInt 1 ]} : gmap string any)
                         ({[ "k"%string := AnyInt 1 ]} : gmap string any) in
  fst (Delete c "k" w) = Some doubles.busy /\
  dbSt (snd (Delete c "k" w)) = ∅ /\
  cacheSt (snd (Delete c "k" w)) = ∅.
Proof.
  intros c w.
  destruct (Delete_rejection_keeps_deletion c "k" w
              (delete "k"%string (cacheSt w))
              (delete "k"%string (dbSt w)) doubles.busy
              eq_refl eq_refl eq_refl) as (Hr & Hd & Hc).
  destruct (Hc eq_refl) as (Hc1 & _).
  rewrite Hr, Hd, Hc1. repeat split; vm_compute; reflexivity.
Defined.

Lemma default_Gopher_starts_one_goroutine_witness :
  let c := New (G := unit) sample.Cache doubles.tableDatabase [] in
  let w := doubles.world ({[ "k"%string := AnyInt 1 ]} : gmap string any)
                         ({[ "k"%string := AnyInt 1 ]} : gmap string any) in
  fst (Set_ c "k" (AnyInt 2) w) = None /\
  pending (snd (Set_ c "k" (AnyInt 2) w)) =
    [{| taskKey := "k"; taskDelay := 500000000;
        taskTimeout := 500000000000 |}] /\
  fst (Delete c "k" w) = None /\
  pending (snd (Delete c "k" w)) =
    [{| taskKey := "k"; taskDelay := 500000000;
        taskTimeout := 500000000000 |}].
Proof.
  intros c w.
  destruct (default_Gopher_starts_one_goroutine c "k" w
              (delete "k"%string (cacheSt w)) eq_refl eq_refl) as (HS & HD).
  rewrite (HS (AnyInt 2) (<["k"%string := AnyInt 2]> (dbSt w)) eq_refl).
  rewrite (HD (delete "k"%string (dbSt w)) eq_refl).
  repeat split; reflexivity.
Defined.

Lemma miss_fills_cache_witness :
  let c := New (G := unit) sample.Cache doubles.tableDatabase [] in
  let w := doubles.world (∅ : gmap string any)
                         ({[ "k"%string := AnyInt 7 ]} : gmap string any) in
  fst (Get c "k" w) = (AnyInt 7, None) /\
  fst (Get c "k" (snd (Get c "k" w))) = (AnyInt 7, None) /\
  trace (snd (Get c "k" (snd (Get c "k" w)))) =
    [EvCacheGet "k"; EvSelect "k"; EvCacheSet "k" (AnyInt 7);
     EvCacheGet "k"].
Proof.
  intros c w.
  destruct (miss_fills_cache doubles.tableDatabase [] "k" w (AnyInt 7)
              (dbSt w) eq_refl eq_refl) as (H1 & _ & H2 & _ & H3).
  split; [exact H1|]. split; [exact H2|].
  etransitivity; [exact H3|reflexivity].
Defined.

Lemma stale_entry_is_purged_witness :
  let c := New (G := unit) sample.Cache doubles.tableDatabase [] in
  let w := doubles.world ({[ "k"%string := AnyInt 1 ]} : gmap string any)
                         ({[ "k"%string := AnyInt 1 ]} : gmap string any) in
  let w2 := snd (cacheSet c "k" (AnyInt 1) (snd (Set_ c "k" (AnyInt 2) w))) in
  fst (Get c "k" w2) = (AnyInt 1, None) /\
  fst (Get c "k" (snd (runPending c w2))) = (AnyInt 2, None).
Proof.
  intros c w w2.
  destruct (stale_entry_is_purged doubles.tableDatabase [] "k" (AnyInt 2)
              (AnyInt 1) w (<["k"%string := AnyInt 2]> (dbSt w))
              eq_refl eq_refl eq_refl)
    as (H1 & _ & _ & _ & _ & _ & H2).
  split; [exact H1|]. etransitivity; [exact H2|reflexivity].
Defined.

End ddd_more.

(** * Further properties of the sharding router *)

Module sharded_more.
Import sharded sharded_facts.

Lemma Apply_hash_app (o : options) (opts1 opts2 : list Option_) :
  Apply o (opts1 ++ opts2) = Apply (Apply o opts1) opts2.
Proof. unfold Apply. apply fold_left_app. Qed.

(** X10: without options the router hashes with FNV-1a of 32 bits.  The
    last WithHashFactory decides: a factory given there is the one in use,
    and a nil one gives the FNV-1a default, whatever was set before.  After
    [newOptions] the field is never nil. *)
Theorem newOptions_hash_factory (opts : list Option_)
    (f : option HashFactory) :
  hashFactoryOf (newOptions []) = defaultHashFactory /\
  hashFactoryOf (newOptions (opts ++ [WithHashFactory f])) =
    match f with Some g => g | None => defaultHashFactory end /\
  HashFactory_ (newOptions opts) = Some (hashFactoryOf (newOptions opts)).
Proof.
  split; [reflexivity|]. split.
  - unfold newOptions. rewrite Apply_hash_app. destruct f; reflexivity.
  - unfold newOptions, Correct, hashFactoryOf.
    destruct (HashFactory_ (Apply _ opts)) as [g|] eqn:E; simpl.
    + rewrite E. reflexivity.
    + reflexivity.
Qed.

Lemma fnv32a_range (p : list Byte.byte) (h : Z) :
  0 <= h < 2 ^ 32 -> 0 <= fold_left fnv32a_step p h < 2 ^ 32.
Proof.
  revert h. induction p as [|b p IH]; intros h Hh; simpl; [exact Hh|].
  apply IH. unfold fnv32a_step, uint32. apply Z.mod_pos_bound. lia.
Qed.

Section Router.

Context {C : Type} {arch : Arch}.
Implicit Types (c : cache C) (b : Bucket C).

(** X11: a router made by [New] without options over fewer than 2^32
    buckets finds a bucket for every key: no error, no panic, and the bucket
    is the one at the FNV-1a sum of the key's bytes modulo the number of
    buckets. *)
Theorem default_router_finds_a_bucket (buckets : list (Bucket C)) key :
  (1 <= length buckets)%nat ->
  Z.of_nat (length buckets) < 2 ^ 32 ->
  exists c,
    New buckets [] = Done c /\
    Buckets c = buckets /\
    selects c key
      (fold_left fnv32a_step (String.list_byte_of_string key) 2166136261
       mod Z.of_nat (length buckets)).
Proof.
  intros Hne Hlt.
  exists {| Options := newOptions []; Buckets := buckets |}.
  split.
  { unfold New. destruct (Nat.eqb_spec (length buckets) 0); [lia|reflexivity]. }
  split; [reflexivity|].
  pose proof (fnv32a_range (String.list_byte_of_string key) 2166136261
                ltac:(lia)) as Hr.
  apply bucket_selects; simpl.
  - unfold bucketIndex. simpl.
    rewrite (uint32_small (Z.of_nat (length buckets))) by lia.
    destruct (Z.eqb_spec (Z.of_nat (length buckets)) 0) as [H0|_]; [lia|].
    rewrite uint32_small by exact Hr. reflexivity.
  - apply Z.mod_pos_bound. lia.
Qed.

Lemma bucket_inv c key i b :
  bucket c key = Done (inl (i, b)) ->
  Buckets c !! i = Some b.
Proof.
  unfold bucket.
  destruct (bucketIndex _ _ key) as [[idx|err]|msg]; try discriminate.
  unfold index. destruct (idx <? 0); [discriminate|].
  destruct (Buckets c !! Z.to_nat idx) as [b0|] eqn:Hl; [|discriminate].
  intros H. injection H as <- <-. exact Hl.
Qed.

Lemma bucket_store c i b st key' :
  Buckets c !! i = Some b ->
  bucket (store c i b st) key' =
  match bucket c key' with
  | Done (inl (j, bj)) =>
      Done (inl (j, if decide (j = i)
                    then {| impl := impl b; state := st |} else bj))
  | other => other
  end.
Proof.
  intros Hi. unfold bucket, store. cbn [Options Buckets].
  rewrite length_insert.
  destruct (bucketIndex _ _ key') as [[idx|err]|msg]; try reflexivity.
  unfold index. destruct (idx <? 0); [reflexivity|].
  destruct (decide (Z.to_nat idx = i)) as [->|Hne].
  - rewrite list_lookup_insert_eq by (eapply lookup_lt_Some; exact Hi).
    rewrite Hi. rewrite decide_True by reflexivity. reflexivity.
  - rewrite list_lookup_insert_ne by congruence.
    destruct (Buckets c !! Z.to_nat idx) as [bj|]; [|reflexivity].
    rewrite decide_False by exact Hne. reflexivity.
Qed.




End Router.

(** *** Over in-memory buckets *)

Section OverSample.

Context {arch : Arch}.
Implicit Types (c : cache (gmap string any)) (b : Bucket (gmap string any)).

Lemma store_id c j b :
  Buckets c !! j = Some b -> store c j b (state b) = c.
Proof.
  intros Hj. destruct c as [o bs], b as [im st]. unfold store; simpl in *.
  rewrite list_insert_id by exact Hj. reflexivity.
Qed.

Lemma Get_in_memory c key j b :
  Forall (fun b => impl b = sample.Cache) (Buckets c) ->
  bucket c key = Done (inl (j, b)) ->
  Get c key = Done (fst (sample.Get key (state b)), c).
Proof.
  intros Hall Hb. pose proof (bucket_inv c key j b Hb) as Hj.
  assert (Him : impl b = sample.Cache).
  { eapply (proj1 (Forall_lookup _ _) Hall). exact Hj. }
  unfold Get. rewrite Hb, Him.
  change (cGet sample.Cache key (state b)) with (sample.Get key (state b)).
  unfold sample.Get.
  destruct (state b !! key); rewrite (store_id c j b Hj); reflexivity.
Qed.

Lemma write_in_memory c key c' (write : gmap string any -> gmap string any) :
  Forall (fun b => impl b = sample.Cache) (Buckets c) ->
  (exists i b, bucket c key = Done (inl (i, b)) /\
               c' = store c i b (write (state b))) ->
  Forall (fun b => impl b = sample.Cache) (Buckets c') /\
  forall key',
    (key' = key ->
     forall i b, bucket c key = Done (inl (i, b)) ->
       Get c' key = Done (fst (sample.Get key (write (state b))), c')) /\
    ((forall m, write m !! key' = m !! key') ->
     forall a, Get c key' = Done (a, c) -> Get c' key' = Done (a, c')).
Proof.
  intros Hall (i & b & Hb & ->).
  pose proof (bucket_inv c key i b Hb) as Hi.
  assert (Him : impl b = sample.Cache).
  { eapply (proj1 (Forall_lookup _ _) Hall). exact Hi. }
  assert (Hall' : Forall (fun b => impl b = sample.Cache)
                         (Buckets (store c i b (write (state b))))).
  { unfold store. simpl. apply Forall_insert; assumption. }
  split; [exact Hall'|]. intros key'. split.
  - intros -> i0 b0 Hb0. rewrite Hb in Hb0. injection Hb0 as <- <-.
    pose proof (bucket_store c i b (write (state b)) key Hi) as Hs.
    rewrite Hb in Hs. rewrite decide_True in Hs by reflexivity.
    rewrite (Get_in_memory _ key i _ Hall' Hs). reflexivity.
  - intros Hframe a Ha.
    pose proof (bucket_store c i b (write (state b)) key' Hi) as Hs.
    destruct (bucket c key') as [[[j bj]|err]|msg] eqn:Hb'.
    + rewrite (Get_in_memory c key' j bj Hall Hb') in Ha.
      injection Ha as <-.
      rewrite (Get_in_memory _ key' j _ Hall' Hs).
      destruct (decide (j = i)) as [->|Hne]; [|reflexivity].
      pose proof (bucket_inv c key' i bj Hb') as Hj.
      assert (bj = b) by congruence. subst bj. simpl.
      unfold sample.Get. rewrite Hframe.
      destruct (state b !! key'); reflexivity.
    + unfold Get in *. rewrite Hb' in Ha. rewrite Hs.
      injection Ha as <-. reflexivity.
    + unfold Get in Ha. rewrite Hb' in Ha. discriminate.
Qed.

Lemma Set_in_memory c key val c' :
  Forall (fun b => impl b = sample.Cache) (Buckets c) ->
  Set_ c key val = Done (None, c') ->
  exists i b, bucket c key = Done (inl (i, b)) /\
              c' = store c i b (<[key := val]> (state b)).
Proof.
  intros Hall. unfold Set_.
  destruct (bucket c key) as [[[i b]|err]|msg] eqn:Hb; try discriminate.
  pose proof (bucket_inv c key i b Hb) as Hi.
  assert (Him : impl b = sample.Cache).
  { eapply (proj1 (Forall_lookup _ _) Hall). exact Hi. }
  rewrite Him.
  change (cSet sample.Cache key val (state b))
    with (sample.Set_ key val (state b)).
  unfold sample.Set_. intros H. injection H as <-.
  exists i, b. split; reflexivity.
Qed.

Lemma Delete_in_memory c key c' :
  Forall (fun b => impl b = sample.Cache) (Buckets c) ->
  Delete c key = Done (None, c') ->
  exists i b, bucket c key = Done (inl (i, b)) /\
              c' = store c i b (delete key (state b)).
Proof.
  intros Hall. unfold Delete.
  destruct (bucket c key) as [[[i b]|err]|msg] eqn:Hb; try discriminate.
  pose proof (bucket_inv c key i b Hb) as Hi.
  assert (Him : impl b = sample.Cache).
  { eapply (proj1 (Forall_lookup _ _) Hall). exact Hi. }
  rewrite Him.
  change (cDelete sample.Cache key (state b))
    with (sample.Delete key (state b)).
  unfold sample.Delete. intros H. injection H as <-.
  exists i, b. split; reflexivity.
Qed.

(** X13: over in-memory buckets, a value set through the router is the
    value got through the router: after a Set that returned nil, Get of the
    key returns the value with a nil error and changes nothing. *)
Theorem Set_then_Get c key val c' :
  Forall (fun b => impl b = sample.Cache) (Buckets c) ->
  Set_ c key val = Done (None, c') ->
  Get c' key = Done ((val, None), c').
Proof.
  intros Hall HS.
  destruct (Set_in_memory c key val c' Hall HS) as (i & b & Hb & Hc).
  destruct (write_in_memory c key c' (fun m => <[key := val]> m) Hall
              (ex_intro _ i (ex_intro _ b (conj Hb Hc)))) as (_ & Hget).
  destruct (Hget key) as (Hsame & _).
  rewrite (Hsame eq_refl i b Hb). unfold sample.Get.
  rewrite lookup_insert_eq. reflexivity.
Qed.

(** X14: over in-memory buckets, after a Delete that returned nil, Get of
    the key returns a nil value and the cache miss error. *)
Theorem Delete_then_Get c key c' :
  Forall (fun b => impl b = sample.Cache) (Buckets c) ->
  Delete c key = Done (None, c') ->
  Get c' key = Done ((AnyNil, Some ErrCacheMiss), c').
Proof.
  intros Hall HD.
  destruct (Delete_in_memory c key c' Hall HD) as (i & b & Hb & Hc).
  destruct (write_in_memory c key c' (fun m => delete key m) Hall
              (ex_intro _ i (ex_intro _ b (conj Hb Hc)))) as (_ & Hget).
  destruct (Hget key) as (Hsame & _).
  rewrite (Hsame eq_refl i b Hb). unfold sample.Get.
  rewrite lookup_delete_eq. reflexivity.
Qed.

(** X15: over in-memory buckets, Set and Delete of one key leave every
    other key as it was: what Get answered for another key before, it
    answers after, whether or not the two keys share a bucket. *)
Theorem other_keys_unaffected c key val c' key' a :
  Forall (fun b => impl b = sample.Cache) (Buckets c) ->
  Set_ c key val = Done (None, c') \/ Delete c key = Done (None, c') ->
  key' <> key ->
  Get c key' = Done (a, c) ->
  Get c' key' = Done (a, c').
Proof.
  intros Hall [HS|HD] Hne Ha.
  - destruct (Set_in_memory c key val c' Hall HS) as (i & b & Hb & Hc).
    destruct (write_in_memory c key c' (fun m => <[key := val]> m) Hall
                (ex_intro _ i (ex_intro _ b (conj Hb Hc)))) as (_ & Hget).
    destruct (Hget key') as (_ & Hother). apply Hother; [|exact Ha].
    intros m. apply lookup_insert_ne. congruence.
  - destruct (Delete_in_memory c key c' Hall HD) as (i & b & Hb & Hc).
    destruct (write_in_memory c key c' (fun m => delete key m) Hall
                (ex_intro _ i (ex_intro _ b (conj Hb Hc)))) as (_ & Hget).
    destruct (Hget key') as (_ & Hother). apply Hother; [|exact Ha].
    intros m. apply lookup_delete_ne. congruence.
Qed.

End OverSample.

(** *** Runs on concrete routers *)

Lemma default_router_finds_a_bucket_witness :
  exists c,
    New [doubles.memBucket ∅; doubles.memBucket ∅] [] = Done c /\
    Buckets c = [doubles.memBucket ∅; doubles.memBucket ∅] /\
    selects c "key2" 0.
Proof.
  assert (H1 : (1 <= length [doubles.memBucket ∅; doubles.memBucket ∅])%nat)
    by (simpl; lia).
  assert (H2 : Z.of_nat (length [doubles.memBucket ∅; doubles.memBucket ∅])
               < 2 ^ 32) by (simpl; lia).
  exact (default_router_finds_a_bucket
           [doubles.memBucket ∅; doubles.memBucket ∅] "key2" H1 H2).
Defined.


Lemma in_memory_twoBuckets :
  Forall (fun b => impl b = sample.Cache) (Buckets doubles.twoBuckets).
Proof. repeat constructor. Qed.

Lemma Set_then_Get_witness :
  let c' := store doubles.twoBuckets 1 (doubles.memBucket ∅)
              {[ "key1"%string := AnyInt 1 ]} in
  Get c' "key1" = Done ((AnyInt 1, None), c').
Proof.
  intros c'.
  apply (Set_then_Get doubles.twoBuckets "key1" (AnyInt 1) c'
           in_memory_twoBuckets).
  reflexivity.
Defined.

Lemma Delete_then_Get_witness :
  let c := store doubles.twoBuckets 1 (doubles.memBucket ∅)
             {[ "key1"%string := AnyInt 1 ]} in
  let c' := store c 1 (doubles.memBucket {[ "key1"%string := AnyInt 1 ]}) ∅ in
  Get c "key1" = Done ((AnyInt 1, None), c) /\
  Get c' "key1" = Done ((AnyNil, Some ErrCacheMiss), c').
Proof.
  intros c c'. split; [reflexivity|].
  apply (Delete_then_Get c "key1" c').
  - repeat constructor.
  - reflexivity.
Defined.

Lemma other_keys_unaffected_witness :
  let c := store doubles.twoBuckets 1 (doubles.memBucket ∅)
             {[ "key1"%string := AnyInt 1 ]} in
  let c' := store c 1 (doubles.memBucket {[ "key1"%string := AnyInt 1 ]})
              (<[ "key3"%string := AnyInt 3 ]>
                 {[ "key1"%string := AnyInt 1 ]}) in
  selects c "key3" 1 /\
  Get c' "key1" = Done ((AnyInt 1, None), c').
Proof.
  intros c c'. split.
  { eexists. split; reflexivity. }
  apply (other_keys_unaffected c "key3" (AnyInt 3) c' "key1").
  - repeat constructor.
  - left. reflexivity.
  - discriminate.
  - reflexivity.
Defined.

End sharded_more.

(** * Properties of the in-memory cache *)

Module sample_facts.

(** X16: the in-memory cache behaves as a table.  Set and Delete return
    nil; after Set the key holds the value; after Delete it is a miss
    reported as the cache miss error with a nil value; Set and Delete of one
    key leave the answers for every other key alone; Get changes nothing;
    and a miss is the only error Get returns. *)
Theorem sample_is_a_table (m : gmap string any) (key key' : string)
    (val : any) :
  fst (sample.Set_ key val m) = None /\
  fst (sample.Delete key m) = None /\
  fst (sample.Get key (snd (sample.Set_ key val m))) = (val, None) /\
  fst (sample.Get key (snd (sample.Delete key m))) =
    (AnyNil, Some ErrCacheMiss) /\
  snd (sample.Get key m) = m /\
  (snd (fst (sample.Get key m)) = None \/
   fst (sample.Get key m) = (AnyNil, Some ErrCacheMiss)) /\
  (key' <> key ->
   fst (sample.Get key' (snd (sample.Set_ key val m))) =
     fst (sample.Get key' m) /\
   fst (sample.Get key' (snd (sample.Delete key m))) =
     fst (sample.Get key' m)).
Proof.
  unfold sample.Get, sample.Set_, sample.Delete; simpl.
  rewrite lookup_insert_eq, lookup_delete_eq.
  repeat split; try reflexivity.
  - destruct (m !! key); reflexivity.
  - destruct (m !! key); [left|right]; reflexivity.
  - rewrite lookup_insert_ne by congruence.
    destruct (m !! key'); reflexivity.
  - rewrite lookup_delete_ne by congruence.
    destruct (m !! key'); reflexivity.
Qed.

End sample_facts.

(** * Properties of the Redis adapter *)

Module redis_facts.
Import redis.

Section Adapter.

Context {R : Type}.
Variable isNil : option error -> bool.
Implicit Types (cache : Cache R) (r : R).

(** X17: Get of the adapter returns a value or an error, never both: with
    any error the value is nil.  An answer of the client that matches
    [redis.Nil] becomes the cache miss error; any other error of the client
    is returned as it is, and Unmarshal is not consulted in either case.
    The server is left as the client's Get left it. *)
Theorem Get_value_or_error cache key r :
  (snd (fst (Get isNil cache key r)) <> None ->
   fst (fst (Get isNil cache key r)) = AnyNil) /\
  snd (Get isNil cache key r) = snd (rGet (Client cache) key r) /\
  (isNil (snd (fst (rGet (Client cache) key r))) = true ->
   fst (Get isNil cache key r) = (AnyNil, Some ErrCacheMiss)) /\
  (forall e,
     isNil (snd (fst (rGet (Client cache) key r))) = false ->
     snd (fst (rGet (Client cache) key r)) = Some e ->
     fst (Get isNil cache key r) = (AnyNil, Some e)).
Proof.
  unfold Get.
  destruct (rGet (Client cache) key r) as [[data err] r1]; simpl.
  destruct (isNil err) eqn:Hn; simpl.
  { repeat split; try reflexivity; discriminate. }
  destruct err as [e|]; simpl.
  { repeat split; try reflexivity; try discriminate.
    intros e0 _ H. injection H as <-. reflexivity. }
  destruct (Unmarshal cache) as [u|]; simpl.
  - destruct (u key data) as [obj [e|]]; simpl;
      repeat split; try reflexivity; try discriminate; try congruence.
  - repeat split; try reflexivity; try discriminate; congruence.
Qed.


(** X19: a value that is not a string makes the round trip through the
    hooks.  With no TTL hook, a Marshal that encodes the value, a client
    whose Set succeeds and whose Get then returns what was stored, and an
    Unmarshal that decodes it, Set returns nil and the Get that follows
    returns the value with a nil error. *)
Theorem hooks_round_trip cache key val r m u data r1 r2 :
  isNil None = false ->
  TTL cache = None ->
  Marshal cache = Some m ->
  Unmarshal cache = Some u ->
  (forall s, val <> AnyString s) ->
  m key val = (data, None) ->
  u key data = (val, None) ->
  rSet (Client cache) key data 0 r = (None, r1) ->
  rGet (Client cache) key r1 = ((data, None), r2) ->
  Set_ cache key val r = (None, r1) /\
  Get isNil cache key r1 = ((val, None), r2).
Proof.
  intros Hn Ht Hm Hu Hns Hmv Hud Hset Hget. split.
  - unfold Set_, store. rewrite Ht, Hm.
    destruct val as [|s|z]; try (rewrite Hmv; exact Hset).
    exfalso. apply (Hns s). reflexivity.
  - unfold Get. rewrite Hget, Hn, Hu, Hud. reflexivity.
Qed.


End Adapter.

(** *** Runs on a table of strings *)

Example Set_failures :
  Set_ (doubles.failingTTL doubles.down) "k" (AnyString "v") ∅ =
    (Some doubles.down, ∅) /\
  Set_ doubles.rawRedis "k" (AnyInt 3) ∅ =
    (Some (ErrNew "gouache: Marshal is nil"), ∅) /\
  Set_ doubles.unaryRedis "k" (AnyInt (-1)) ∅ = (Some (ErrNew "negative"), ∅) /\
  Get doubles.isRedisNil doubles.rawRedis "k" ∅ =
    ((AnyNil, Some ErrCacheMiss), ∅).
Proof. repeat split; reflexivity. Qed.

Lemma hooks_round_trip_witness :
  Set_ doubles.unaryRedis "k" (AnyInt 3) ∅ = (None, {[ "k"%string := "III"%string ]}) /\
  Get doubles.isRedisNil doubles.unaryRedis "k" {[ "k"%string := "III"%string ]} =
    ((AnyInt 3, None), {[ "k"%string := "III"%string ]}).
Proof.
  apply (hooks_round_trip doubles.isRedisNil doubles.unaryRedis "k" (AnyInt 3)
           ∅ doubles.unaryMarshal doubles.unaryUnmarshal "III");
    try reflexivity.
  intros s. discriminate.
Defined.


End redis_facts.
